(** * mono-hwcap-arm.c: ARM hardware feature detection

    A shallow embedding of [mono/utils/mono-hwcap-arm.c] and the properties
    of its two entry points, [mono_hwcap_arch_init] and [mono_hwcap_print].

    The C file is a sequence of conditional stores into eight global
    [gboolean] variables.  Which probe is compiled in is decided by the
    preprocessor; the embedding keeps the preprocessor symbols as a record of
    booleans so that one definition covers every build. *)

From Stdlib Require Import ZArith List String Ascii Bool Lia.
From Stdlib Require Import DecimalString.
From Equations Require Import Equations.
From Equations.Prop Require Import Logic.
Import ListNotations.

Local Open Scope string_scope.
Local Open Scope Z_scope.

(** ** C strings and the libc functions the probe calls *)

Module CString.

(** The terminating NUL. *)
Definition NUL : ascii := Ascii.zero.

Definition is_nul (c : ascii) : bool := Ascii.eqb c NUL.

(** A value of type [unsigned char], as libc compares bytes. *)
Definition uchar (c : ascii) : Z := Z.of_N (N_of_ascii c).

(** A plain [char] promoted to [int].  Whether plain [char] is signed is
    the target's choice (unsigned under the ARM EABI, signed on Darwin). *)
Definition char_to_int (char_signed : bool) (c : ascii) : Z :=
  if char_signed && (128 <=? uchar c) then uchar c - 256 else uchar c.

(** A string in memory is held as the bytes found at its address, in
    order: the C string, and where it matters its terminator and the bytes
    stored behind it.  [index s i] is the [i]-th of the listed bytes, read
    as it is; C has no bounds check and a NUL on the way does not stop the
    read. *)
Fixpoint index (s : string) (i : nat) : option ascii :=
  match s, i with
  | EmptyString, _ => None
  | String c _, O => Some c
  | String _ t, S j => index t j
  end.

(** [s[i]]: the byte at offset [i].  Behind the listed bytes comes the
    terminator, and memory not listed is read as NUL. *)
Definition byte_at (s : string) (i : nat) : ascii :=
  match index s i with
  | Some c => c
  | None => NUL
  end.

(** [strncmp (a, b, n)]: compares at most [n] bytes, as [unsigned char],
    and stops at the first difference or at a NUL. *)
Fixpoint strncmp (a b : string) (n : nat) : Z :=
  match n with
  | O => 0
  | S k =>
      let ca := match a with EmptyString => NUL | String c _ => c end in
      let cb := match b with EmptyString => NUL | String c _ => c end in
      if negb (Ascii.eqb ca cb) then uchar ca - uchar cb
      else if is_nul ca then 0
      else strncmp (match a with EmptyString => a | String _ t => t end)
                   (match b with EmptyString => b | String _ t => t end) k
  end.

(** [needle] (a literal without NUL) occurs at the very start of [hay]. *)
Fixpoint starts_with (needle hay : string) : bool :=
  match needle, hay with
  | EmptyString, _ => true
  | String _ _, EmptyString => false
  | String c n', String d h' =>
      Ascii.eqb c d && starts_with n' h'
  end.

(** [strstr (hay, needle)]: the suffix of [hay] that starts at the first
    occurrence of [needle], or [None] for the null pointer.  The search
    ends at the first NUL of [hay]. *)
Fixpoint strstr (hay needle : string) : option string :=
  if starts_with needle hay then Some hay
  else match hay with
       | EmptyString => None
       | String c t => if is_nul c then None else strstr t needle
       end.

(** The bytes [fgets] stores for a buffer with room for [n] of them: it
    stops after a newline, at end of file, or when the room is used up.
    Returns the bytes stored and the unread remainder of the stream. *)
Fixpoint fgets_bytes (n : nat) (stream : string) : string * string :=
  match n, stream with
  | O, _ => (EmptyString, stream)
  | S _, EmptyString => (EmptyString, EmptyString)
  | S k, String c t =>
      if Ascii.eqb c "010"%char then (String c EmptyString, t)
      else let (l, r) := fgets_bytes k t in (String c l, r)
  end.

(** [fgets (buf, size, file)]: [None] is the null pointer returned at end
    of file; otherwise the line read and the rest of the stream. *)
Definition fgets (size : nat) (stream : string) : option (string * string) :=
  match stream with
  | EmptyString => None
  | String _ _ => Some (fgets_bytes (Nat.pred size) stream)
  end.

End CString.

(** ** The eight global flags *)

(** [gboolean] with its two values. *)
Definition gboolean := bool.
Definition TRUE : gboolean := true.
Definition FALSE : gboolean := false.

(** The globals of the file, in declaration order. *)
Record hwcap_arm := {
  mono_hwcap_arm_is_v5 : gboolean;
  mono_hwcap_arm_is_v6 : gboolean;
  mono_hwcap_arm_is_v7 : gboolean;
  mono_hwcap_arm_has_vfp : gboolean;
  mono_hwcap_arm_has_vfp3 : gboolean;
  mono_hwcap_arm_has_vfp3_d16 : gboolean;
  mono_hwcap_arm_has_thumb : gboolean;
  mono_hwcap_arm_has_thumb2 : gboolean
}.

(** The static initialisers: every flag starts out [FALSE]. *)
Definition initial_flags : hwcap_arm :=
  {| mono_hwcap_arm_is_v5 := FALSE;
     mono_hwcap_arm_is_v6 := FALSE;
     mono_hwcap_arm_is_v7 := FALSE;
     mono_hwcap_arm_has_vfp := FALSE;
     mono_hwcap_arm_has_vfp3 := FALSE;
     mono_hwcap_arm_has_vfp3_d16 := FALSE;
     mono_hwcap_arm_has_thumb := FALSE;
     mono_hwcap_arm_has_thumb2 := FALSE |}.

(** Names for the globals, used as the left-hand side of an assignment. *)
Inductive global :=
| IS_V5 | IS_V6 | IS_V7
| HAS_VFP | HAS_VFP3 | HAS_VFP3_D16
| HAS_THUMB | HAS_THUMB2.

Definition all_globals : list global :=
  [IS_V5; IS_V6; IS_V7; HAS_VFP; HAS_VFP3; HAS_VFP3_D16; HAS_THUMB; HAS_THUMB2].

Definition read (g : global) (f : hwcap_arm) : gboolean :=
  match g with
  | IS_V5 => mono_hwcap_arm_is_v5 f
  | IS_V6 => mono_hwcap_arm_is_v6 f
  | IS_V7 => mono_hwcap_arm_is_v7 f
  | HAS_VFP => mono_hwcap_arm_has_vfp f
  | HAS_VFP3 => mono_hwcap_arm_has_vfp3 f
  | HAS_VFP3_D16 => mono_hwcap_arm_has_vfp3_d16 f
  | HAS_THUMB => mono_hwcap_arm_has_thumb f
  | HAS_THUMB2 => mono_hwcap_arm_has_thumb2 f
  end.

Definition write (g : global) (v : gboolean) (f : hwcap_arm) : hwcap_arm :=
  let '(Build_hwcap_arm v5 v6 v7 vfp vfp3 d16 thumb thumb2) := f in
  match g with
  | IS_V5 => Build_hwcap_arm v v6 v7 vfp vfp3 d16 thumb thumb2
  | IS_V6 => Build_hwcap_arm v5 v v7 vfp vfp3 d16 thumb thumb2
  | IS_V7 => Build_hwcap_arm v5 v6 v vfp vfp3 d16 thumb thumb2
  | HAS_VFP => Build_hwcap_arm v5 v6 v7 v vfp3 d16 thumb thumb2
  | HAS_VFP3 => Build_hwcap_arm v5 v6 v7 vfp v d16 thumb thumb2
  | HAS_VFP3_D16 => Build_hwcap_arm v5 v6 v7 vfp vfp3 v thumb thumb2
  | HAS_THUMB => Build_hwcap_arm v5 v6 v7 vfp vfp3 d16 v thumb2
  | HAS_THUMB2 => Build_hwcap_arm v5 v6 v7 vfp vfp3 d16 thumb v
  end.

(** ** Runs of the probe

    A run threads the globals through the function and records, in order,
    every assignment to a global and every call into the C library.  It
    either returns, or stops at a fault. *)

Inductive libcall :=
| Getauxval | Sysctlbyname | Uname | Fopen | Fgets | Fclose.

Inductive event :=
| Assign (g : global) (v : gboolean)
| Call (f : libcall).

Record machine := {
  flags : hwcap_arm;
  trace : list event
}.

Inductive fault :=
| AssertionFailed.  (* [g_assert] aborted the process *)

Inductive outcome (A : Type) :=
| Returned (a : A) (m : machine)
| Faulted (e : fault) (m : machine).
Arguments Returned {A} a m.
Arguments Faulted {A} e m.

Definition M (A : Type) : Type := machine -> outcome A.

Definition ret {A} (a : A) : M A := fun m => Returned a m.

Definition bind {A B} (c : M A) (k : A -> M B) : M B :=
  fun m => match c m with
           | Returned a m' => k a m'
           | Faulted e m' => Faulted e m'
           end.

Definition abort {A} (e : fault) : M A := fun m => Faulted e m.

Declare Scope probe_scope.
Delimit Scope probe_scope with probe.
Notation "x <- c ;; k" := (bind c (fun x => k))
  (at level 61, c at next level, right associativity) : probe_scope.
Notation "c ;; k" := (bind c (fun _ => k))
  (at level 61, right associativity) : probe_scope.
Local Open Scope probe_scope.

Definition emit (e : event) (m : machine) : machine :=
  {| flags := match e with
              | Assign g v => write g v (flags m)
              | Call _ => flags m
              end;
     trace := trace m ++ [e] |}.

(** [g = v;] *)
Definition assign (g : global) (v : gboolean) : M unit :=
  fun m => Returned tt (emit (Assign g v) m).

(** A call into libc whose result the host supplies. *)
Definition libc {A} (f : libcall) (result : A) : M A :=
  fun m => Returned result (emit (Call f) m).

(** [if (c) body] without an [else]. *)
Definition when (c : bool) (body : M unit) : M unit :=
  if c then body else ret tt.

(** [s[i]] as an [int]: a plain read, promoted. *)
Definition load (char_signed : bool) (s : string) (i : nat) : M Z :=
  ret (CString.char_to_int char_signed (CString.byte_at s i)).

(** The value of a character literal such as ['5']. *)
Definition lit (c : ascii) : Z := CString.uchar c.

(** ** The build and the host *)

(** The preprocessor symbols the file tests, the signedness of plain [char]
    ([__CHAR_UNSIGNED__]), and the subtype constants that [<mach/machine.h>]
    supplies on Darwin. *)
Record config := {
  HAVE_SYS_AUXV_H : bool;
  PLATFORM_ANDROID : bool;
  APPLE : bool;
  HAVE_SYS_UTSNAME_H : bool;
  CHAR_UNSIGNED : bool;
  CPU_SUBTYPE_ARM_V5TEJ : Z;
  CPU_SUBTYPE_ARM_XSCALE : Z;
  CPU_SUBTYPE_ARM_V6 : Z;
  CPU_SUBTYPE_ARM_V7 : Z;
  CPU_SUBTYPE_ARM_V7F : Z;
  CPU_SUBTYPE_ARM_V7K : Z
}.

(** What the operating system answers to the probe's queries. *)
Record host := {
  AT_HWCAP : Z;                    (* getauxval (AT_HWCAP) *)
  AT_PLATFORM : option string;     (* the bytes at the address that
                                      getauxval (AT_PLATFORM) returns;
                                      [None] is 0 *)
  hw_cpusubtype : Z;               (* [sub_type] after sysctlbyname *)
  utsname_machine : option string; (* [name.machine]; [None]: uname failed *)
  proc_cpuinfo : option string     (* /proc/cpuinfo; [None]: fopen failed *)
}.

(** ** mono_hwcap_arch_init *)

Section Init.

Variable cfg : config.
Variable os : host.

Let char_signed : bool := negb (CHAR_UNSIGNED cfg).

(** The branch under [HAVE_SYS_AUXV_H && !PLATFORM_ANDROID]. *)
Definition init_auxv : M unit :=
  hwcap <- libc Getauxval (AT_HWCAP os) ;;
  when (negb (hwcap =? 0)) (
    (* HWCAP_ARM_THUMB *)
    when (negb (Z.land hwcap 0x00000004 =? 0)) (assign HAS_THUMB TRUE) ;;
    (* HWCAP_ARM_VFP *)
    when (negb (Z.land hwcap 0x00000040 =? 0)) (assign HAS_VFP TRUE) ;;
    (* HWCAP_ARM_VFPv3 *)
    when (negb (Z.land hwcap 0x00002000 =? 0)) (assign HAS_VFP3 TRUE) ;;
    (* HWCAP_ARM_VFPv3D16 *)
    when (negb (Z.land hwcap 0x00004000 =? 0)) (assign HAS_VFP3_D16 TRUE)
  ) ;;
  platform <- libc Getauxval (AT_PLATFORM os) ;;
  match platform with
  | Some str =>
      c <- load char_signed str 1 ;;
      when (lit "5" <=? c) (assign IS_V5 TRUE) ;;
      c <- load char_signed str 1 ;;
      when (lit "6" <=? c) (assign IS_V6 TRUE) ;;
      c <- load char_signed str 1 ;;
      when (lit "7" <=? c) (assign IS_V7 TRUE)
  | None => ret tt
  end.

(** The branch under [__APPLE__]. *)
Definition init_apple : M unit :=
  sub_type <- libc Sysctlbyname (hw_cpusubtype os) ;;
  if (sub_type =? CPU_SUBTYPE_ARM_V5TEJ cfg)
     || (sub_type =? CPU_SUBTYPE_ARM_XSCALE cfg) then
    assign IS_V5 TRUE
  else if sub_type =? CPU_SUBTYPE_ARM_V6 cfg then
    assign IS_V5 TRUE ;;
    assign IS_V6 TRUE
  else if (sub_type =? CPU_SUBTYPE_ARM_V7 cfg)
          || (sub_type =? CPU_SUBTYPE_ARM_V7F cfg)
          || (sub_type =? CPU_SUBTYPE_ARM_V7K cfg) then
    assign IS_V5 TRUE ;;
    assign IS_V6 TRUE ;;
    assign IS_V7 TRUE
  else ret tt.

(** The block under [HAVE_SYS_UTSNAME_H] of the fallback branch. *)
Definition init_uname : M unit :=
  name <- libc Uname (utsname_machine os) ;;
  match name with
  | None => abort AssertionFailed
  | Some mach =>
      when ((CString.strncmp mach "aarch64" 7 =? 0)
            || (CString.strncmp mach "armv8" 5 =? 0)) (
        assign IS_V5 TRUE ;;
        assign IS_V6 TRUE ;;
        assign IS_V7 TRUE ;;
        assign HAS_VFP TRUE ;;
        assign HAS_VFP3 TRUE ;;
        assign HAS_VFP3_D16 TRUE ;;
        assign HAS_THUMB TRUE ;;
        assign HAS_THUMB2 TRUE
      )
  end.

(** [p != NULL] for the result of [strstr]. *)
Definition found (p : option string) : bool :=
  match p with Some _ => true | None => false end.

(** The body of the [while] loop for one line; each [continue] is the end
    of its branch. *)
Definition scan_line (line : string) : M unit :=
  if (CString.strncmp line "Processor" 9 =? 0)
     || (CString.strncmp line "model name" 10 =? 0) then
    match CString.strstr line "(v" with
    | Some ver =>
        c <- load char_signed ver 2 ;;
        when (lit "5" <=? c) (assign IS_V5 TRUE) ;;
        c <- load char_signed ver 2 ;;
        when (lit "6" <=? c) (assign IS_V6 TRUE) ;;
        c <- load char_signed ver 2 ;;
        when (lit "7" <=? c) (assign IS_V7 TRUE)
    | None => ret tt
    end
  else if CString.strncmp line "Features" 8 =? 0 then
    when (found (CString.strstr line "thumb")) (assign HAS_THUMB TRUE) ;;
    when (found (CString.strstr line "vfp")) (assign HAS_VFP TRUE) ;;
    when (found (CString.strstr line "vfpv3")) (assign HAS_VFP3 TRUE) ;;
    when (found (CString.strstr line "vfpv3-d16")) (assign HAS_VFP3_D16 TRUE)
  else ret tt.

(** The [while ((line = fgets (buf, 512, file)))] loop over the unread part
    of the stream.  Every [fgets] that returns a line consumes at least one
    byte, which is what makes the loop end. *)
Equations? scan_cpuinfo (file : string) (m : machine) : outcome unit
  by wf (String.length file) lt :=
  scan_cpuinfo file m with inspect (CString.fgets 512 file) := {
    | exist _ None _ => Returned tt (emit (Call Fgets) m)
    | exist _ (Some (line, rest)) _ =>
        match scan_line line (emit (Call Fgets) m) with
        | Returned _ m' => scan_cpuinfo rest m'
        | Faulted e m' => Faulted e m'
        end }.
Proof.
  assert (no_longer : forall n s l r,
             CString.fgets_bytes n s = (l, r) ->
             (String.length r <= String.length s)%nat).
  { induction n as [|n IH]; intros s l r E.
    - simpl in E. inversion E; subst. lia.
    - destruct s as [|c t]; simpl in E.
      + inversion E; subst. simpl. lia.
      + destruct (Ascii.eqb c "010").
        * inversion E; subst. simpl. lia.
        * destruct (CString.fgets_bytes n t) as [l' r'] eqn:E'.
          inversion E; subst. apply IH in E'. simpl. lia. }
  assert (shorter : forall n c t l r,
             CString.fgets_bytes (S n) (String c t) = (l, r) ->
             (String.length r < String.length (String c t))%nat).
  { intros n c t l r E. cbn [CString.fgets_bytes] in E.
    destruct (Ascii.eqb c "010").
    - inversion E; subst. simpl. lia.
    - destruct (CString.fgets_bytes n t) as [l' r'] eqn:E'.
      inversion E; subst. apply no_longer in E'. simpl. lia. }
  destruct file as [|c t]; [discriminate|].
  unfold CString.fgets in e. injection e as e.
  exact (shorter 510%nat c t line rest e).
Qed.

(** The first half of the fallback branch: the block that is compiled only
    under [HAVE_SYS_UTSNAME_H]. *)
Definition uname_block : M unit :=
  if HAVE_SYS_UTSNAME_H cfg then init_uname else ret tt.

(** The second half of the fallback branch: the scan of /proc/cpuinfo. *)
Definition init_cpuinfo : M unit :=
  file <- libc Fopen (proc_cpuinfo os) ;;
  match file with
  | Some contents =>
      scan_cpuinfo contents ;;
      libc Fclose tt
  | None => ret tt
  end.

(** The [#else] branch: both halves, one after the other. *)
Definition init_fallback : M unit :=
  uname_block ;;
  init_cpuinfo.

(** [mono_hwcap_arch_init]: the preprocessor picks one of the three
    branches. *)
Definition mono_hwcap_arch_init : M unit :=
  if HAVE_SYS_AUXV_H cfg && negb (PLATFORM_ANDROID cfg) then init_auxv
  else if APPLE cfg then init_apple
  else init_fallback.

End Init.

(** ** mono_hwcap_print *)

(** [%i] applied to an [int]. *)
Definition print_int (v : Z) : string := NilZero.string_of_int (Z.to_int v).

(** The text a format with [%i] conversions produces for one [int]
    argument; every other byte of the format is copied. *)
Fixpoint format (fmt : string) (arg : Z) : string :=
  match fmt with
  | EmptyString => EmptyString
  | String "%" (String "i" rest) => print_int arg ++ format rest arg
  | String c rest => String c (format rest arg)
  end.

(** A [gboolean] passed through the variadic call: [FALSE] is 0 and [TRUE]
    is 1. *)
Definition int_of_gboolean (b : gboolean) : Z := if b then 1 else 0.

(** [g_fprintf (f, fmt, arg)] with the sink [f] held as the text written to
    it so far.  The return value is dropped by the caller. *)
Definition g_fprintf (f : string) (fmt : string) (arg : gboolean) : string :=
  f ++ format fmt (int_of_gboolean arg).

(** The newline of the C literals. *)
Definition LF : string := String "010" EmptyString.

(** [mono_hwcap_print (f)]: eight calls of [g_fprintf], each reading one
    global of the state [g]; the result is the sink after the calls. *)
Definition mono_hwcap_print (g : hwcap_arm) (f : string) : string :=
  let f := g_fprintf f ("mono_hwcap_arm_is_v5 = %i" ++ LF) (mono_hwcap_arm_is_v5 g) in
  let f := g_fprintf f ("mono_hwcap_arm_is_v6 = %i" ++ LF) (mono_hwcap_arm_is_v6 g) in
  let f := g_fprintf f ("mono_hwcap_arm_is_v7 = %i" ++ LF) (mono_hwcap_arm_is_v7 g) in
  let f := g_fprintf f ("mono_hwcap_arm_has_vfp = %i" ++ LF) (mono_hwcap_arm_has_vfp g) in
  let f := g_fprintf f ("mono_hwcap_arm_has_vfp3 = %i" ++ LF) (mono_hwcap_arm_has_vfp3 g) in
  let f := g_fprintf f ("mono_hwcap_arm_has_vfp3_d16 = %i" ++ LF) (mono_hwcap_arm_has_vfp3_d16 g) in
  let f := g_fprintf f ("mono_hwcap_arm_has_thumb = %i" ++ LF) (mono_hwcap_arm_has_thumb g) in
  let f := g_fprintf f ("mono_hwcap_arm_has_thumb2 = %i" ++ LF) (mono_hwcap_arm_has_thumb2 g) in
  f.

(** ** Vocabulary of the specification *)

(** The machine a run ends in, whether it returned or stopped at a fault. *)
Definition final {A} (o : outcome A) : machine :=
  match o with
  | Returned _ m => m
  | Faulted _ m => m
  end.

(** Performing a list of events in order. *)
Definition replay (evs : list event) (m : machine) : machine :=
  fold_left (fun m e => emit e m) evs m.

(** How a run ends: with a value or with a fault. *)
Definition close {A} (r : A + fault) (m : machine) : outcome A :=
  match r with
  | inl a => Returned a m
  | inr e => Faulted e m
  end.

(** An event that cannot lower a flag: a library call, or an assignment of
    [TRUE]. *)
Definition raises_only (e : event) : Prop :=
  match e with
  | Assign _ v => v = TRUE
  | Call _ => True
  end.

(** A computation whose events and result do not depend on the machine it
    starts from, and that only ever assigns [TRUE]. *)
Definition straight {A} (c : M A) : Prop :=
  exists evs r, Forall raises_only evs /\ forall m, c m = close r (replay evs m).

(** A computation that keeps a property of the globals. *)
Definition preserves {A} (I : hwcap_arm -> Prop) (c : M A) : Prop :=
  forall m, I (flags m) -> I (flags (final (c m))).

(** A computation that always returns. *)
Definition returns {A} (c : M A) : Prop :=
  forall m, exists a m', c m = Returned a m'.

(** [is_v7 => is_v6 => is_v5]. *)
Definition version_monotone (f : hwcap_arm) : Prop :=
  (mono_hwcap_arm_is_v7 f = TRUE -> mono_hwcap_arm_is_v6 f = TRUE) /\
  (mono_hwcap_arm_is_v6 f = TRUE -> mono_hwcap_arm_is_v5 f = TRUE).

(** Every flag [TRUE]. *)
Definition all_true : hwcap_arm :=
  {| mono_hwcap_arm_is_v5 := TRUE;
     mono_hwcap_arm_is_v6 := TRUE;
     mono_hwcap_arm_is_v7 := TRUE;
     mono_hwcap_arm_has_vfp := TRUE;
     mono_hwcap_arm_has_vfp3 := TRUE;
     mono_hwcap_arm_has_vfp3_d16 := TRUE;
     mono_hwcap_arm_has_thumb := TRUE;
     mono_hwcap_arm_has_thumb2 := TRUE |}.

(** The machine at process start. *)
Definition boot : machine := {| flags := initial_flags; trace := [] |}.

(** The build takes the auxiliary-vector branch. *)
Definition auxv_build (cfg : config) : Prop :=
  HAVE_SYS_AUXV_H cfg = true /\ PLATFORM_ANDROID cfg = false.

(** The build takes the [#else] branch. *)
Definition fallback_build (cfg : config) : Prop :=
  HAVE_SYS_AUXV_H cfg && negb (PLATFORM_ANDROID cfg) = false /\
  APPLE cfg = false.

(** The machine string names an ARMv8 machine, in either spelling. *)
Definition armv8_machine (mach : string) : Prop :=
  String.prefix "aarch64" mach = true \/
  String.prefix "armv8" mach = true.

(** The uname block, where it is compiled in, does not abort. *)
Definition uname_succeeds (cfg : config) (os : host) : Prop :=
  HAVE_SYS_UTSNAME_H cfg = true -> utsname_machine os <> None.

(** The uname block is compiled in and sees an ARMv8 machine string. *)
Definition armv8_detected (cfg : config) (os : host) : Prop :=
  HAVE_SYS_UTSNAME_H cfg = true /\
  exists mach, utsname_machine os = Some mach /\ armv8_machine mach.

(** The events of the block that runs when uname reports ARMv8. *)
Definition armv8_events : list event :=
  [Assign IS_V5 TRUE; Assign IS_V6 TRUE; Assign IS_V7 TRUE;
   Assign HAS_VFP TRUE; Assign HAS_VFP3 TRUE; Assign HAS_VFP3_D16 TRUE;
   Assign HAS_THUMB TRUE; Assign HAS_THUMB2 TRUE].

Definition global_eqb (a b : global) : bool :=
  match a, b with
  | IS_V5, IS_V5 | IS_V6, IS_V6 | IS_V7, IS_V7
  | HAS_VFP, HAS_VFP | HAS_VFP3, HAS_VFP3 | HAS_VFP3_D16, HAS_VFP3_D16
  | HAS_THUMB, HAS_THUMB | HAS_THUMB2, HAS_THUMB2 => true
  | _, _ => false
  end.

(** The event is an assignment to [g]. *)
Definition assigns (g : global) (e : event) : bool :=
  match e with
  | Assign g' _ => global_eqb g g'
  | Call _ => false
  end.

(** A text made of whole lines: empty, or ending in a newline. *)
Fixpoint whole_lines (s : string) : bool :=
  match s with
  | EmptyString => true
  | String c EmptyString => Ascii.eqb c "010"
  | String _ t => whole_lines t
  end.

(** A literal contains no NUL. *)
Fixpoint nul_free (s : string) : bool :=
  match s with
  | EmptyString => true
  | String c t => negb (CString.is_nul c) && nul_free t
  end.

(** *** Sample builds and hosts *)

(** The subtype numbers of Darwin's [<mach/machine.h>], with the symbols
    that select the branch left to the caller. *)
Definition sample_build (auxv android apple utsname : bool) : config :=
  {| HAVE_SYS_AUXV_H := auxv;
     PLATFORM_ANDROID := android;
     APPLE := apple;
     HAVE_SYS_UTSNAME_H := utsname;
     CHAR_UNSIGNED := negb apple;
     CPU_SUBTYPE_ARM_V5TEJ := 7;
     CPU_SUBTYPE_ARM_XSCALE := 8;
     CPU_SUBTYPE_ARM_V6 := 6;
     CPU_SUBTYPE_ARM_V7 := 9;
     CPU_SUBTYPE_ARM_V7F := 10;
     CPU_SUBTYPE_ARM_V7K := 12 |}.

(** A Linux build with [<sys/auxv.h>]. *)
Definition linux_build : config := sample_build true false false true.

(** An Android build: the fallback branch with [<sys/utsname.h>]. *)
Definition android_build : config := sample_build true true false true.

(** A build without [<sys/auxv.h>] and without [<sys/utsname.h>]. *)
Definition bare_build : config := sample_build false false false false.

Definition model_name_line : string :=
  "model name : ARMv7 Processor rev 2 (v7l)".

Definition features_line : string :=
  "Features : thumb vfp vfpv3".

(** What follows a line in a file: the end of the file, or a newline and
    the text after it. *)
Definition ends_line (tail : string) : Prop :=
  tail = EmptyString \/ exists post, tail = LF ++ post.

Definition sample_host (hwcap : Z) (platform machine cpuinfo : option string)
  : host :=
  {| AT_HWCAP := hwcap;
     AT_PLATFORM := platform;
     hw_cpusubtype := 9;
     utsname_machine := machine;
     proc_cpuinfo := cpuinfo |}.

(** An ARMv7 host: VFP in the auxiliary vector, an ARMv7 cpuinfo. *)
Definition armv7_host : host :=
  sample_host 0x00000040 (Some "v7l") (Some "armv7l")
    (Some (model_name_line ++ LF ++ features_line ++ LF)).

(** A 32-bit process on an ARMv8 kernel. *)
Definition armv8_host : host :=
  sample_host 0 None (Some "aarch64")
    (Some (model_name_line ++ LF ++ features_line ++ LF)).

(** An ARMv8 kernel on which /proc/cpuinfo cannot be opened. *)
Definition armv8_no_cpuinfo_host : host :=
  sample_host 0 None (Some "aarch64") None.

(** A host whose /proc/cpuinfo is the Features line alone. *)
Definition features_only_host : host :=
  sample_host 0 None (Some "armv7l") (Some (features_line ++ LF)).

(** A host on which /proc/cpuinfo cannot be opened. *)
Definition no_cpuinfo_host : host :=
  sample_host 0 None (Some "armv7l") None.

(** *** The text [mono_hwcap_print] is expected to write *)

(** The C identifier of a global. *)
Definition c_name (g : global) : string :=
  match g with
  | IS_V5 => "mono_hwcap_arm_is_v5"
  | IS_V6 => "mono_hwcap_arm_is_v6"
  | IS_V7 => "mono_hwcap_arm_is_v7"
  | HAS_VFP => "mono_hwcap_arm_has_vfp"
  | HAS_VFP3 => "mono_hwcap_arm_has_vfp3"
  | HAS_VFP3_D16 => "mono_hwcap_arm_has_vfp3_d16"
  | HAS_THUMB => "mono_hwcap_arm_has_thumb"
  | HAS_THUMB2 => "mono_hwcap_arm_has_thumb2"
  end.

(** One line of the report: [name = 0] or [name = 1], then a newline. *)
Definition flag_line (name : string) (v : gboolean) : string :=
  name ++ " = " ++ (if v then "1" else "0") ++ LF.

(** The eight lines, in the order of the declarations. *)
Definition report (f : hwcap_arm) : list string :=
  map (fun g => flag_line (c_name g) (read g f)) all_globals.

(** How many newlines a text holds. *)
Fixpoint newlines (s : string) : nat :=
  match s with
  | EmptyString => O
  | String c t => ((if Ascii.eqb c "010" then 1 else 0) + newlines t)%nat
  end.

(** *** Further vocabulary *)

(** The build takes the [__APPLE__] branch. *)
Definition apple_build (cfg : config) : Prop :=
  HAVE_SYS_AUXV_H cfg && negb (PLATFORM_ANDROID cfg) = false /\
  APPLE cfg = true.

(** Flag by flag, the disjunction of two states. *)
Definition join (a b : hwcap_arm) : hwcap_arm :=
  {| mono_hwcap_arm_is_v5 := mono_hwcap_arm_is_v5 a || mono_hwcap_arm_is_v5 b;
     mono_hwcap_arm_is_v6 := mono_hwcap_arm_is_v6 a || mono_hwcap_arm_is_v6 b;
     mono_hwcap_arm_is_v7 := mono_hwcap_arm_is_v7 a || mono_hwcap_arm_is_v7 b;
     mono_hwcap_arm_has_vfp :=
       mono_hwcap_arm_has_vfp a || mono_hwcap_arm_has_vfp b;
     mono_hwcap_arm_has_vfp3 :=
       mono_hwcap_arm_has_vfp3 a || mono_hwcap_arm_has_vfp3 b;
     mono_hwcap_arm_has_vfp3_d16 :=
       mono_hwcap_arm_has_vfp3_d16 a || mono_hwcap_arm_has_vfp3_d16 b;
     mono_hwcap_arm_has_thumb :=
       mono_hwcap_arm_has_thumb a || mono_hwcap_arm_has_thumb b;
     mono_hwcap_arm_has_thumb2 :=
       mono_hwcap_arm_has_thumb2 a || mono_hwcap_arm_has_thumb2 b |}.

(** A computation whose events and result do not depend on the machine it
    starts from, and whose events all satisfy [P]. *)
Definition emits {A} (P : event -> Prop) (c : M A) : Prop :=
  exists evs r, Forall P evs /\ forall m, c m = close r (replay evs m).

(** An event that assigns [TRUE] if it assigns, and does not assign [g]. *)
Definition spares (g : global) (e : event) : Prop :=
  raises_only e /\ assigns g e = false.

(** An event of the loop over the file: an assignment of [TRUE], or a call
    of [fgets]. *)
Definition loop_event (e : event) : Prop :=
  match e with
  | Assign _ v => v = TRUE
  | Call f => f = Fgets
  end.

(** How often the run called [f]. *)
Definition calls (f : libcall) (evs : list event) : nat :=
  List.length
    (filter (fun e => match e, f with
                      | Call Getauxval, Getauxval
                      | Call Sysctlbyname, Sysctlbyname
                      | Call Uname, Uname
                      | Call Fopen, Fopen
                      | Call Fgets, Fgets
                      | Call Fclose, Fclose => true
                      | _, _ => false
                      end) evs).

(** [has_vfp3_d16 => has_vfp3 => has_vfp]. *)
Definition vfp_monotone (f : hwcap_arm) : Prop :=
  (mono_hwcap_arm_has_vfp3_d16 f = TRUE -> mono_hwcap_arm_has_vfp3 f = TRUE) /\
  (mono_hwcap_arm_has_vfp3 f = TRUE -> mono_hwcap_arm_has_vfp f = TRUE).

(** The byte the auxiliary-vector branch compares: [str[1]] as an [int],
    when the entry is present. *)
Definition platform_version (cfg : config) (os : host) : option Z :=
  match AT_PLATFORM os with
  | Some str =>
      Some (CString.char_to_int (negb (CHAR_UNSIGNED cfg))
              (CString.byte_at str 1))
  | None => None
  end.

(** [c >= d] for an optional byte [c] and a digit [d]. *)
Definition at_least (c : option Z) (d : ascii) : bool :=
  match c with
  | Some z => lit d <=? z
  | None => false
  end.

(** What the auxiliary-vector branch detects, read off the two entries:
    bits 2, 6, 13 and 14 of [AT_HWCAP], and the version byte. *)
Definition auxv_detected (cfg : config) (os : host) : hwcap_arm :=
  {| mono_hwcap_arm_is_v5 := at_least (platform_version cfg os) "5";
     mono_hwcap_arm_is_v6 := at_least (platform_version cfg os) "6";
     mono_hwcap_arm_is_v7 := at_least (platform_version cfg os) "7";
     mono_hwcap_arm_has_vfp := Z.testbit (AT_HWCAP os) 6;
     mono_hwcap_arm_has_vfp3 := Z.testbit (AT_HWCAP os) 13;
     mono_hwcap_arm_has_vfp3_d16 := Z.testbit (AT_HWCAP os) 14;
     mono_hwcap_arm_has_thumb := Z.testbit (AT_HWCAP os) 2;
     mono_hwcap_arm_has_thumb2 := FALSE |}.

(** The subtype is one of the six constants the Darwin branch knows. *)
Definition known_subtype (cfg : config) (sub_type : Z) : bool :=
  (sub_type =? CPU_SUBTYPE_ARM_V5TEJ cfg)
  || (sub_type =? CPU_SUBTYPE_ARM_XSCALE cfg)
  || (sub_type =? CPU_SUBTYPE_ARM_V6 cfg)
  || (sub_type =? CPU_SUBTYPE_ARM_V7 cfg)
  || (sub_type =? CPU_SUBTYPE_ARM_V7F cfg)
  || (sub_type =? CPU_SUBTYPE_ARM_V7K cfg).

(** The text holds no newline. *)
Fixpoint no_newline (s : string) : bool :=
  match s with
  | EmptyString => true
  | String c t => negb (Ascii.eqb c "010") && no_newline t
  end.

(** The bytes that stand right before a newline, in order. *)
Fixpoint line_ends (s : string) : list ascii :=
  match s with
  | String c (String d t as rest) =>
      if Ascii.eqb d "010" then c :: line_ends rest else line_ends rest
  | _ => []
  end.

(** A Darwin build with the subtype numbers of [<mach/machine.h>]. *)
Definition darwin_build : config := sample_build false false true true.

(** [n] bytes of filler without a newline. *)
Fixpoint filler (n : nat) : string :=
  match n with
  | O => EmptyString
  | S k => String "#" (filler k)
  end.

(** A host whose /proc/cpuinfo is one long line: 511 bytes of filler, then
    the Features text. *)
Definition long_line_host : host :=
  sample_host 0 None (Some "armv7l")
    (Some (filler 511 ++ features_line ++ LF)).

(** The digit [%i] prints for a flag. *)
Definition digit (b : gboolean) : ascii := if b then "1"%char else "0"%char.

(** The text holds no opening parenthesis and no NUL. *)
Fixpoint no_paren (s : string) : bool :=
  match s with
  | EmptyString => true
  | String c t =>
      negb (Ascii.eqb c "(") && negb (CString.is_nul c) && no_paren t
  end.

(** The version flags that the three comparisons against ['5'], ['6'] and
    ['7'] give for the byte value [z]. *)
Definition version_flags (z : Z) : hwcap_arm :=
  {| mono_hwcap_arm_is_v5 := lit "5" <=? z;
     mono_hwcap_arm_is_v6 := lit "6" <=? z;
     mono_hwcap_arm_is_v7 := lit "7" <=? z;
     mono_hwcap_arm_has_vfp := FALSE;
     mono_hwcap_arm_has_vfp3 := FALSE;
     mono_hwcap_arm_has_vfp3_d16 := FALSE;
     mono_hwcap_arm_has_thumb := FALSE;
     mono_hwcap_arm_has_thumb2 := FALSE |}.

(** The four tokens of a Features line and the flag each one sets. *)
Definition feature_tokens : list (string * global) :=
  [("thumb", HAS_THUMB); ("vfp", HAS_VFP); ("vfpv3", HAS_VFP3);
   ("vfpv3-d16", HAS_VFP3_D16)].

(** A machine on which two flags are set before the call. *)
Definition preset : machine :=
  {| flags := write HAS_THUMB2 TRUE (write IS_V5 TRUE initial_flags);
     trace := [] |}.

(** A host whose platform entry points at an empty string, with the bytes
    [7], [l] and NUL stored behind its terminator; VFP in [AT_HWCAP]. *)
Definition empty_platform_host : host :=
  sample_host 0x00000040 (Some (String CString.NUL "7l")) (Some "armv7l")
    None.

(** The text [needle] occurs somewhere in [s]. *)
Fixpoint occurs (needle s : string) : bool :=
  CString.starts_with needle s
  || match s with
     | EmptyString => false
     | String _ t => occurs needle t
     end.

(** A host whose /proc/cpuinfo has the sample Features line and a second
    Features line that names the D16 variant. *)
Definition two_features_host : host :=
  sample_host 0 None (Some "armv7l")
    (Some (features_line ++ LF ++ "Features : vfpv3-d16" ++ LF)).

(** A host whose uname fails. *)
Definition no_uname_host : host :=
  sample_host 0 None None (Some (features_line ++ LF)).

(** ** Properties *)

Local Open Scope list_scope.

(** *** The globals as a store *)

Lemma flags_ext f1 f2 : (forall g, read g f1 = read g f2) -> f1 = f2.
Proof.
  intros H. destruct f1, f2.
  pose proof (H IS_V5); pose proof (H IS_V6); pose proof (H IS_V7);
    pose proof (H HAS_VFP); pose proof (H HAS_VFP3); pose proof (H HAS_VFP3_D16);
    pose proof (H HAS_THUMB); pose proof (H HAS_THUMB2).
  simpl in *. congruence.
Qed.

Lemma write_true_raises g g' f :
  read g f = true -> read g (write g' TRUE f) = true.
Proof. destruct f, g, g'; simpl; intros; auto. Qed.

(** *** Replaying events *)

Lemma replay_app evs1 evs2 m :
  replay (evs1 ++ evs2) m = replay evs2 (replay evs1 m).
Proof. apply fold_left_app. Qed.

Lemma trace_replay evs : forall m, trace (replay evs m) = trace m ++ evs.
Proof.
  induction evs as [|e evs IH]; intros m; simpl.
  - now rewrite app_nil_r.
  - unfold replay in IH. rewrite IH. simpl. now rewrite <- app_assoc.
Qed.

Lemma flags_replay_irrel evs : forall m1 m2,
  flags m1 = flags m2 -> flags (replay evs m1) = flags (replay evs m2).
Proof.
  induction evs as [|e evs IH]; intros m1 m2 E; simpl; [exact E|].
  apply IH. destruct e; simpl; congruence.
Qed.

Lemma replay_raises evs : Forall raises_only evs -> forall m g,
  read g (flags m) = true -> read g (flags (replay evs m)) = true.
Proof.
  induction 1 as [|e evs He _ IH]; intros m g Hg; simpl; [exact Hg|].
  apply IH. destruct e as [g' v|f]; simpl in *; [|exact Hg].
  subst v. now apply write_true_raises.
Qed.

Lemma read_emit g e m :
  raises_only e ->
  read g (flags (emit e m)) = read g (flags m) || assigns g e.
Proof.
  destruct e as [g' v|f]; simpl; intros H.
  - subst v. destruct (flags m), g, g'; simpl;
      rewrite ?orb_true_r, ?orb_false_r; reflexivity.
  - now rewrite orb_false_r.
Qed.

Lemma read_replay g evs : Forall raises_only evs -> forall m,
  read g (flags (replay evs m)) = read g (flags m) || existsb (assigns g) evs.
Proof.
  induction 1 as [|e evs He _ IH]; intros m; simpl.
  - now rewrite orb_false_r.
  - unfold replay in IH. rewrite IH, read_emit by exact He.
    now rewrite orb_assoc.
Qed.

Lemma replay_twice evs m :
  Forall raises_only evs ->
  flags (replay evs (replay evs m)) = flags (replay evs m).
Proof.
  intros H. apply flags_ext. intros g.
  rewrite !read_replay by exact H.
  destruct (read g (flags m)), (existsb (assigns g) evs); reflexivity.
Qed.

(** *** Straight computations *)

Lemma straight_ret {A} (a : A) : straight (ret a).
Proof. exists [], (inl a). split; [constructor|reflexivity]. Qed.

Lemma straight_abort {A} (e : fault) : straight (@abort A e).
Proof. exists [], (inr e). split; [constructor|reflexivity]. Qed.

Lemma straight_assign g : straight (assign g TRUE).
Proof.
  exists [Assign g TRUE], (inl tt).
  split; [repeat constructor|reflexivity].
Qed.

Lemma straight_libc {A} f (a : A) : straight (libc f a).
Proof.
  exists [Call f], (inl a).
  split; [repeat constructor|reflexivity].
Qed.

Lemma straight_bind {A B} (c : M A) (k : A -> M B) :
  straight c -> (forall a, straight (k a)) -> straight (bind c k).
Proof.
  intros (evs & r & Hevs & Hc) Hk. destruct r as [a|e].
  - destruct (Hk a) as (evs' & r' & Hevs' & Hka).
    exists (evs ++ evs'), r'. split.
    + apply Forall_app. now split.
    + intros m. unfold bind. rewrite Hc. simpl. now rewrite Hka, replay_app.
  - exists evs, (inr e). split; [exact Hevs|].
    intros m. unfold bind. now rewrite Hc.
Qed.

Lemma straight_when b c : straight c -> straight (when b c).
Proof. destruct b; simpl; [auto|intros _; apply straight_ret]. Qed.

Lemma straight_load sg s i : straight (load sg s i).
Proof. apply straight_ret. Qed.

Create HintDb straight.
#[local] Hint Resolve straight_ret straight_abort straight_assign
  straight_libc straight_when straight_load : straight.

Ltac straight_steps :=
  repeat first
    [ apply straight_bind; [|intros ?]
    | apply straight_when
    | match goal with
      | |- straight (if ?b then _ else _) => destruct b
      | |- straight (match ?x with _ => _ end) => destruct x
      end
    | solve [auto with straight] ].

Lemma straight_init_auxv cfg os : straight (init_auxv cfg os).
Proof. unfold init_auxv. straight_steps. Qed.

Lemma straight_init_apple cfg os : straight (init_apple cfg os).
Proof. unfold init_apple. straight_steps. Qed.

Lemma straight_init_uname os : straight (init_uname os).
Proof. unfold init_uname. straight_steps. Qed.

Lemma straight_scan_line cfg line : straight (scan_line cfg line).
Proof. unfold scan_line. straight_steps. Qed.

(** *** The loop over /proc/cpuinfo *)

Lemma scan_cpuinfo_step cfg file m :
  scan_cpuinfo cfg file m =
  match CString.fgets 512 file with
  | Some (line, rest) =>
      match scan_line cfg line (emit (Call Fgets) m) with
      | Returned _ m' => scan_cpuinfo cfg rest m'
      | Faulted e m' => Faulted e m'
      end
  | None => Returned tt (emit (Call Fgets) m)
  end.
Proof.
  rewrite scan_cpuinfo_equation_1.
  change (CString.fgets 512 file)
    with (proj1_sig (inspect (CString.fgets 512 file))) at 2.
  destruct (inspect (CString.fgets 512 file)) as [[[line rest]|] e];
    reflexivity.
Qed.

Lemma scan_cpuinfo_eof cfg file m :
  CString.fgets 512 file = None ->
  scan_cpuinfo cfg file m = Returned tt (emit (Call Fgets) m).
Proof. intros E. now rewrite scan_cpuinfo_step, E. Qed.

Lemma scan_cpuinfo_line cfg file line rest m :
  CString.fgets 512 file = Some (line, rest) ->
  scan_cpuinfo cfg file m =
  match scan_line cfg line (emit (Call Fgets) m) with
  | Returned _ m' => scan_cpuinfo cfg rest m'
  | Faulted e m' => Faulted e m'
  end.
Proof. intros E. now rewrite scan_cpuinfo_step, E. Qed.

Lemma straight_scan_cpuinfo cfg file : straight (scan_cpuinfo cfg file).
Proof.
  apply (scan_cpuinfo_elim cfg
           (fun file _ _ => straight (scan_cpuinfo cfg file)));
    [| |exact boot]; clear file.
  - intros file line rest E _ IH _.
    specialize (IH tt boot).
    assert (S : straight (bind (libc Fgets tt)
                            (fun _ => bind (scan_line cfg line)
                                        (fun _ => scan_cpuinfo cfg rest)))).
    { apply straight_bind; [apply straight_libc|intros _].
      apply straight_bind; [apply straight_scan_line|intros _; exact IH]. }
    destruct S as (evs & r & Hevs & HS). exists evs, r. split; [exact Hevs|].
    intros m. rewrite <- HS, (scan_cpuinfo_line _ _ _ _ _ E).
    unfold bind, libc. destruct (scan_line cfg line _) as [[]|]; reflexivity.
  - intros file E m _. exists [Call Fgets], (inl tt).
    split; [repeat constructor|].
    intros m'. now rewrite scan_cpuinfo_eof.
Qed.

Lemma straight_init_cpuinfo cfg os : straight (init_cpuinfo cfg os).
Proof.
  unfold init_cpuinfo.
  apply straight_bind; [apply straight_libc|intros [contents|]].
  - apply straight_bind; [apply straight_scan_cpuinfo|intros _].
    apply straight_libc.
  - apply straight_ret.
Qed.

Lemma straight_uname_block cfg os : straight (uname_block cfg os).
Proof.
  unfold uname_block. destruct (HAVE_SYS_UTSNAME_H cfg);
    [apply straight_init_uname|apply straight_ret].
Qed.

Lemma straight_init_fallback cfg os : straight (init_fallback cfg os).
Proof.
  unfold init_fallback.
  apply straight_bind; [apply straight_uname_block|intros _].
  apply straight_init_cpuinfo.
Qed.

Lemma straight_mono_hwcap_arch_init cfg os :
  straight (mono_hwcap_arch_init cfg os).
Proof.
  unfold mono_hwcap_arch_init.
  destruct (HAVE_SYS_AUXV_H cfg && negb (PLATFORM_ANDROID cfg));
    [apply straight_init_auxv|].
  destruct (APPLE cfg); [apply straight_init_apple|].
  apply straight_init_fallback.
Qed.

(** *** Computations that always return *)

Lemma returns_ret {A} (a : A) : returns (ret a).
Proof. intros m. now exists a, m. Qed.

Lemma returns_assign g v : returns (assign g v).
Proof. intros m. now exists tt, (emit (Assign g v) m). Qed.

Lemma returns_libc {A} f (a : A) : returns (libc f a).
Proof. intros m. now exists a, (emit (Call f) m). Qed.

Lemma returns_bind {A B} (c : M A) (k : A -> M B) :
  returns c -> (forall a, returns (k a)) -> returns (bind c k).
Proof.
  intros Hc Hk m. destruct (Hc m) as (a & m' & E).
  unfold bind. rewrite E. apply Hk.
Qed.

Lemma returns_when b c : returns c -> returns (when b c).
Proof. destruct b; simpl; [auto|intros _; apply returns_ret]. Qed.

Lemma returns_load sg s i : returns (load sg s i).
Proof. apply returns_ret. Qed.

Lemma returns_scan_line cfg line : returns (scan_line cfg line).
Proof.
  unfold scan_line.
  destruct (_ || _).
  - destruct (CString.strstr line "(v") as [ver|] eqn:E; [|apply returns_ret].
    repeat first
      [ apply returns_bind; [|intros ?]
      | apply returns_when
      | apply returns_assign
      | apply returns_load ].
  - destruct (_ =? _); [|apply returns_ret].
    repeat first
      [ apply returns_bind; [|intros ?]
      | apply returns_when
      | apply returns_assign ].
Qed.

Lemma returns_scan_cpuinfo cfg file : returns (scan_cpuinfo cfg file).
Proof.
  intros m.
  apply (scan_cpuinfo_elim cfg
           (fun file m r => exists a m', r = Returned a m')); clear file m.
  - intros file line rest E m IH _.
    destruct (returns_scan_line cfg line (emit (Call Fgets) m))
      as ([] & m1 & E1).
    rewrite E1. apply (IH tt).
  - intros file E m _. eauto.
Qed.

Lemma returns_init_cpuinfo cfg os : returns (init_cpuinfo cfg os).
Proof.
  unfold init_cpuinfo.
  apply returns_bind; [apply returns_libc|intros [contents|]].
  - apply returns_bind; [apply returns_scan_cpuinfo|intros _].
    apply returns_libc.
  - apply returns_ret.
Qed.

(** *** Computations that keep a property of the globals *)

Lemma preserves_ret {A} I (a : A) : preserves I (ret a).
Proof. intros m H. exact H. Qed.

Lemma preserves_abort {A} I e : preserves I (@abort A e).
Proof. intros m H. exact H. Qed.

Lemma preserves_libc {A} I f (a : A) : preserves I (libc f a).
Proof. intros m H. exact H. Qed.

Lemma preserves_bind {A B} I (c : M A) (k : A -> M B) :
  preserves I c -> (forall a, preserves I (k a)) -> preserves I (bind c k).
Proof.
  intros Hc Hk m Hm. specialize (Hc m Hm). unfold bind.
  destruct (c m) as [a m'|e m']; simpl in *; [now apply Hk|exact Hc].
Qed.

Lemma preserves_when I b c : preserves I c -> preserves I (when b c).
Proof. destruct b; simpl; [auto|intros _; apply preserves_ret]. Qed.

Lemma preserves_scan_cpuinfo I cfg :
  (forall line, preserves I (scan_line cfg line)) ->
  forall file, preserves I (scan_cpuinfo cfg file).
Proof.
  intros Hline file m.
  apply (scan_cpuinfo_elim cfg
           (fun file m r => I (flags m) -> I (flags (final r)))); clear file m.
  - intros file line rest E m IH _ Hm.
    pose proof (Hline line (emit (Call Fgets) m) Hm) as H1.
    destruct (scan_line cfg line _) as [[] m1|e m1]; simpl in H1.
    + now apply (IH tt).
    + exact H1.
  - intros file E m _ Hm. exact Hm.
Qed.

(** An assignment to a flag that is not a version flag. *)
Lemma feature_assign_monotone g v :
  g <> IS_V5 -> g <> IS_V6 -> g <> IS_V7 ->
  preserves version_monotone (assign g v).
Proof.
  intros H5 H6 H7 m Hm. simpl. unfold version_monotone in *.
  destruct (flags m), g; simpl in *; try congruence; exact Hm.
Qed.

(** The three threshold tests on one byte: whichever of them succeed, the
    flags they set are closed downwards. *)
Lemma version_checks_monotone sg s i :
  preserves version_monotone
    (c <- load sg s i ;;
     when (lit "5" <=? c) (assign IS_V5 TRUE) ;;
     c <- load sg s i ;;
     when (lit "6" <=? c) (assign IS_V6 TRUE) ;;
     c <- load sg s i ;;
     when (lit "7" <=? c) (assign IS_V7 TRUE)).
Proof.
  intros m Hm. unfold load, bind, ret, when, assign.
  change (lit "5") with 53. change (lit "6") with 54. change (lit "7") with 55.
  generalize (CString.char_to_int sg (CString.byte_at s i)). intros z.
  destruct (53 <=? z) eqn:E5, (54 <=? z) eqn:E6, (55 <=? z) eqn:E7;
    try (exfalso; lia);
    unfold version_monotone in *; simpl in *; destruct (flags m);
    simpl in *; unfold TRUE in *; intuition congruence.
Qed.

Lemma monotone_init_auxv cfg os :
  preserves version_monotone (init_auxv cfg os).
Proof.
  unfold init_auxv.
  apply preserves_bind; [apply preserves_libc|intros hwcap].
  apply preserves_bind.
  - apply preserves_when.
    repeat first
      [ apply preserves_bind; [|intros ?]
      | apply preserves_when
      | apply feature_assign_monotone; discriminate ].
  - intros _. apply preserves_bind; [apply preserves_libc|intros [str|]].
    + apply version_checks_monotone.
    + apply preserves_ret.
Qed.

Lemma monotone_init_apple cfg os :
  preserves version_monotone (init_apple cfg os).
Proof.
  unfold init_apple.
  apply preserves_bind; [apply preserves_libc|intros sub_type].
  intros m Hm. unfold version_monotone in *.
  repeat match goal with
         | |- context [if ?b then _ else _] => destruct b
         end;
    simpl in *; destruct (flags m); simpl in *; unfold TRUE in *;
    intuition congruence.
Qed.

Lemma monotone_uname_block cfg os :
  preserves version_monotone (uname_block cfg os).
Proof.
  unfold uname_block. destruct (HAVE_SYS_UTSNAME_H cfg);
    [|apply preserves_ret].
  unfold init_uname.
  apply preserves_bind; [apply preserves_libc|intros [machine|]];
    [|apply preserves_abort].
  apply preserves_when. intros m Hm.
  unfold version_monotone. simpl. destruct (flags m). simpl.
  unfold TRUE. auto.
Qed.

Lemma monotone_scan_line cfg line :
  preserves version_monotone (scan_line cfg line).
Proof.
  unfold scan_line. destruct (_ || _).
  - destruct (CString.strstr line "(v");
      [apply version_checks_monotone|apply preserves_ret].
  - destruct (_ =? _); [|apply preserves_ret].
    repeat first
      [ apply preserves_bind; [|intros ?]
      | apply preserves_when
      | apply feature_assign_monotone; discriminate ].
Qed.

Lemma monotone_init_cpuinfo cfg os :
  preserves version_monotone (init_cpuinfo cfg os).
Proof.
  unfold init_cpuinfo.
  apply preserves_bind; [apply preserves_libc|intros [contents|]];
    [|apply preserves_ret].
  apply preserves_bind; [|intros _; apply preserves_libc].
  apply preserves_scan_cpuinfo. apply monotone_scan_line.
Qed.

(** **** C1 *)

(** C1: a run of [mono_hwcap_arch_init] keeps [is_v7 => is_v6 => is_v5].
    In every build, on every host, and whether the run returns or stops at
    a fault: if the version flags are closed downwards when the run starts
    (as they are at process start, when all are [FALSE]), they are closed
    downwards in the machine the run ends in. *)
Theorem arch_init_version_monotone (cfg : config) (os : host) (m : machine) :
  version_monotone (flags m) ->
  version_monotone (flags (final (mono_hwcap_arch_init cfg os m))).
Proof.
  revert m. change (preserves version_monotone (mono_hwcap_arch_init cfg os)).
  unfold mono_hwcap_arch_init.
  destruct (HAVE_SYS_AUXV_H cfg && negb (PLATFORM_ANDROID cfg));
    [apply monotone_init_auxv|].
  destruct (APPLE cfg); [apply monotone_init_apple|].
  unfold init_fallback.
  apply preserves_bind; [apply monotone_uname_block|intros _].
  apply monotone_init_cpuinfo.
Qed.

(** **** C10 *)

(** C10: within one run, every assignment to a flag writes [TRUE].  The run
    ends in the machine obtained by performing its events [evs] in order;
    every assignment among them has the value [TRUE]; and a flag that is
    [TRUE] at any point of the run (at the start, or after any initial part
    [before] of the events, such as the uname block) is [TRUE] at the
    end. *)
Theorem arch_init_only_raises (cfg : config) (os : host) (m : machine) :
  exists evs,
    final (mono_hwcap_arch_init cfg os m) = replay evs m /\
    (forall g v, In (Assign g v) evs -> v = TRUE) /\
    (forall before after g,
        evs = before ++ after ->
        read g (flags (replay before m)) = TRUE ->
        read g (flags (final (mono_hwcap_arch_init cfg os m))) = TRUE).
Proof.
  destruct (straight_mono_hwcap_arch_init cfg os) as (evs & r & Hevs & Hrun).
  assert (E : final (mono_hwcap_arch_init cfg os m) = replay evs m).
  { rewrite Hrun. now destruct r. }
  exists evs. split; [exact E|]. split.
  - intros g v Hin. rewrite Forall_forall in Hevs. exact (Hevs _ Hin).
  - intros before after g Hsplit Hg. rewrite E, Hsplit, replay_app.
    apply replay_raises; [|exact Hg].
    rewrite Hsplit in Hevs. now apply Forall_app in Hevs.
Qed.

(** **** C9 *)

(** C9: [mono_hwcap_arch_init] is idempotent.  On a fixed build and host,
    if a call returns in machine [m1], a second call started from [m1]
    returns as well and leaves all eight flags as the first call left
    them. *)
Theorem arch_init_idempotent (cfg : config) (os : host) (m m1 : machine) :
  mono_hwcap_arch_init cfg os m = Returned tt m1 ->
  exists m2,
    mono_hwcap_arch_init cfg os m1 = Returned tt m2 /\ flags m2 = flags m1.
Proof.
  destruct (straight_mono_hwcap_arch_init cfg os) as (evs & r & Hevs & Hrun).
  intros H1. rewrite Hrun in H1.
  destruct r as [[]|e]; simpl in H1; [|discriminate].
  injection H1 as <-.
  exists (replay evs (replay evs m)). split.
  - now rewrite Hrun.
  - now apply replay_twice.
Qed.

Lemma arch_init_idempotent_witness :
  exists m1 m2,
    mono_hwcap_arch_init android_build armv7_host boot = Returned tt m1 /\
    mono_hwcap_arch_init android_build armv7_host m1 = Returned tt m2 /\
    flags m2 = flags m1.
Proof.
  eexists.
  destruct (arch_init_idempotent android_build armv7_host boot _ eq_refl)
    as (m2 & H2 & Hflags).
  exists m2. split; [reflexivity|]. split; [exact H2|exact Hflags].
Defined.

Lemma arch_init_version_monotone_witness :
  version_monotone (flags boot) /\
  version_monotone
    (flags (final (mono_hwcap_arch_init linux_build armv7_host boot))).
Proof.
  assert (H : version_monotone (flags boot)).
  { split; intros H; exact H. }
  split; [exact H|].
  apply (arch_init_version_monotone linux_build armv7_host boot H).
Defined.

(** *** [strncmp] against a literal is a prefix test *)

Lemma uchar_inj a b : CString.uchar a = CString.uchar b -> a = b.
Proof.
  unfold CString.uchar. intros H. apply N2Z.inj in H.
  rewrite <- (ascii_N_embedding a), <- (ascii_N_embedding b). now f_equal.
Qed.

Lemma strncmp_literal p : nul_free p = true -> forall s,
  (CString.strncmp s p (String.length p) =? 0) = String.prefix p s.
Proof.
  induction p as [|c p IH]; intros Hp s; [now destruct s|].
  simpl in Hp. apply andb_prop in Hp as [Hc Hp].
  destruct s as [|a s]; cbn [String.length CString.strncmp String.prefix].
  - destruct (Ascii.eqb CString.NUL c) eqn:E.
    + apply Ascii.eqb_eq in E. subst c. discriminate.
    + cbn [negb]. apply Z.eqb_neq. intros H.
      assert (CString.NUL = c) by (apply uchar_inj; lia).
      subst c. discriminate.
  - destruct (Ascii.ascii_dec c a) as [->|Hne].
    + rewrite Ascii.eqb_refl. cbn [negb].
      apply negb_true_iff in Hc. rewrite Hc. now apply IH.
    + destruct (Ascii.eqb a c) eqn:E.
      * apply Ascii.eqb_eq in E. congruence.
      * cbn [negb]. apply Z.eqb_neq. intros H.
        assert (a = c) by (apply uchar_inj; lia). congruence.
Qed.

(** *** The uname block *)

Lemma flags_after_armv8 evs m :
  Forall raises_only evs ->
  flags (replay (Call Uname :: armv8_events ++ evs) m) = all_true.
Proof.
  intros H. apply flags_ext. intros g.
  change (Call Uname :: armv8_events ++ evs)
    with ((Call Uname :: armv8_events) ++ evs).
  rewrite replay_app.
  transitivity true; [|now destruct g].
  apply replay_raises; [exact H|].
  simpl. destruct (flags m), g; reflexivity.
Qed.

Lemma uname_block_armv8 cfg os mach m :
  HAVE_SYS_UTSNAME_H cfg = true ->
  utsname_machine os = Some mach ->
  armv8_machine mach ->
  uname_block cfg os m = Returned tt (replay (Call Uname :: armv8_events) m).
Proof.
  intros Hcfg Hos Hm. unfold uname_block, init_uname. rewrite Hcfg.
  unfold bind at 1. unfold libc. rewrite Hos.
  change 7%nat with (String.length "aarch64").
  change 5%nat with (String.length "armv8").
  rewrite !strncmp_literal by reflexivity.
  destruct Hm as [-> | ->]; rewrite ?orb_true_r; reflexivity.
Qed.

Lemma uname_block_other cfg os mach m :
  HAVE_SYS_UTSNAME_H cfg = true ->
  utsname_machine os = Some mach ->
  ~ armv8_machine mach ->
  uname_block cfg os m = Returned tt (replay [Call Uname] m).
Proof.
  intros Hcfg Hos Hm. unfold uname_block, init_uname. rewrite Hcfg.
  unfold bind at 1. unfold libc. rewrite Hos.
  change 7%nat with (String.length "aarch64").
  change 5%nat with (String.length "armv8").
  rewrite !strncmp_literal by reflexivity.
  unfold armv8_machine in Hm.
  destruct (String.prefix "aarch64" mach); [tauto|].
  destruct (String.prefix "armv8" mach); [tauto|].
  reflexivity.
Qed.

Lemma init_cpuinfo_runs cfg os :
  exists evs,
    Forall raises_only evs /\
    forall m, init_cpuinfo cfg os m = Returned tt (replay evs m).
Proof.
  destruct (straight_init_cpuinfo cfg os) as (evs & r & Hevs & Hrun).
  exists evs. split; [exact Hevs|]. intros m.
  destruct (returns_init_cpuinfo cfg os m) as ([] & m' & E).
  rewrite Hrun in *. destruct r as [[]|e]; [reflexivity|discriminate].
Qed.

Lemma arch_init_fallback cfg os m :
  fallback_build cfg ->
  mono_hwcap_arch_init cfg os m = init_fallback cfg os m.
Proof.
  intros [H1 H2]. unfold mono_hwcap_arch_init. now rewrite H1, H2.
Qed.

Lemma arch_init_auxv cfg os m :
  auxv_build cfg ->
  mono_hwcap_arch_init cfg os m = init_auxv cfg os m.
Proof.
  intros [H1 H2]. unfold mono_hwcap_arch_init. now rewrite H1, H2.
Qed.

(** **** C4 *)

(** C4, as amended: in a fallback build that has [<sys/utsname.h>]
    ([HAVE_SYS_UTSNAME_H]), when the machine string uname reports starts
    with "aarch64" or with "armv8", the call returns and all eight flags
    are [TRUE], whatever /proc/cpuinfo holds and whatever the flags were
    before. *)
Theorem armv8_machine_sets_all (cfg : config) (os : host) (mach : string)
    (m : machine) :
  fallback_build cfg ->
  HAVE_SYS_UTSNAME_H cfg = true ->
  utsname_machine os = Some mach ->
  armv8_machine mach ->
  exists m',
    mono_hwcap_arch_init cfg os m = Returned tt m' /\ flags m' = all_true.
Proof.
  intros Hfb Hcfg Hos Hm.
  destruct (init_cpuinfo_runs cfg os) as (evs & Hevs & Hrun).
  exists (replay (Call Uname :: armv8_events ++ evs) m). split.
  - rewrite arch_init_fallback by exact Hfb. unfold init_fallback, bind.
    rewrite (uname_block_armv8 _ _ _ _ Hcfg Hos Hm), Hrun.
    change (Call Uname :: armv8_events ++ evs)
      with ((Call Uname :: armv8_events) ++ evs).
    now rewrite replay_app.
  - now apply flags_after_armv8.
Qed.

Lemma armv8_machine_sets_all_witness :
  fallback_build android_build /\
  HAVE_SYS_UTSNAME_H android_build = true /\
  utsname_machine armv8_host = Some "aarch64"%string /\
  armv8_machine "aarch64" /\
  exists m',
    mono_hwcap_arch_init android_build armv8_host boot = Returned tt m' /\
    flags m' = all_true.
Proof.
  assert (H1 : fallback_build android_build) by (split; reflexivity).
  assert (H4 : armv8_machine "aarch64") by (left; reflexivity).
  repeat split; try reflexivity; try exact H4.
  exact (armv8_machine_sets_all android_build armv8_host "aarch64" boot
           H1 eq_refl eq_refl H4).
Defined.

(** C4, as stated, fails: the uname block is compiled only under
    [HAVE_SYS_UTSNAME_H].  In a fallback build without that header, on a
    host whose kernel reports "aarch64" and whose /proc/cpuinfo cannot be
    opened, the call returns with every flag still [FALSE]. *)
Lemma armv8_machine_unseen_without_utsname :
  ~ (forall cfg os mach m,
        fallback_build cfg ->
        utsname_machine os = Some mach ->
        armv8_machine mach ->
        exists m',
          mono_hwcap_arch_init cfg os m = Returned tt m' /\
          flags m' = all_true).
Proof.
  intros H.
  destruct (H bare_build armv8_no_cpuinfo_host "aarch64"%string boot)
    as (m' & E & Hflags).
  - split; reflexivity.
  - reflexivity.
  - left. reflexivity.
  - vm_compute in E. injection E as <-. discriminate Hflags.
Qed.

(** *** Whole lines in front of the stream *)

Lemma scan_line_runs cfg line :
  exists evs,
    Forall raises_only evs /\
    forall m, scan_line cfg line m = Returned tt (replay evs m).
Proof.
  destruct (straight_scan_line cfg line) as (evs & r & Hevs & Hrun).
  exists evs. split; [exact Hevs|]. intros m.
  destruct (returns_scan_line cfg line m) as ([] & m' & E).
  rewrite Hrun in *. destruct r as [[]|e]; [reflexivity|discriminate].
Qed.

Lemma scan_cpuinfo_runs cfg file :
  exists evs,
    Forall raises_only evs /\
    forall m, scan_cpuinfo cfg file m = Returned tt (replay evs m).
Proof.
  destruct (straight_scan_cpuinfo cfg file) as (evs & r & Hevs & Hrun).
  exists evs. split; [exact Hevs|]. intros m.
  destruct (returns_scan_cpuinfo cfg file m) as ([] & m' & E).
  rewrite Hrun in *. destruct r as [[]|e]; [reflexivity|discriminate].
Qed.

Lemma whole_lines_tail c t :
  whole_lines (String c t) = true -> whole_lines t = true.
Proof. destruct t; [reflexivity|intros H; exact H]. Qed.

Lemma fgets_bytes_cons n c t :
  CString.fgets_bytes (S n) (String c t) =
  if Ascii.eqb c "010" then (String c EmptyString, t)
  else let (l, r) := CString.fgets_bytes n t in (String c l, r).
Proof. reflexivity. Qed.

(** [fgets] never reads across the end of a non-empty run of whole lines:
    what it leaves unread is a shorter run of whole lines, followed by the
    rest of the stream. *)
Lemma fgets_bytes_whole_lines n : forall pre rest,
  pre <> EmptyString -> whole_lines pre = true ->
  exists l pre',
    CString.fgets_bytes (S n) (pre ++ rest)%string = (l, (pre' ++ rest)%string) /\
    whole_lines pre' = true /\
    (String.length pre' < String.length pre)%nat.
Proof.
  induction n as [|n IH]; intros pre rest Hne Hw;
    (destruct pre as [|c t]; [congruence|]);
    cbn [String.append]; rewrite fgets_bytes_cons;
    pose proof (whole_lines_tail _ _ Hw) as Ht.
  - destruct (Ascii.eqb c "010"); exists (String c EmptyString), t;
      (split; [reflexivity|split; [exact Ht|simpl; lia]]).
  - destruct (Ascii.eqb c "010") eqn:Ec.
    + exists (String c EmptyString), t.
      split; [reflexivity|split; [exact Ht|simpl; lia]].
    + assert (Hne' : t <> EmptyString).
      { intros ->. simpl in Hw. congruence. }
      destruct (IH t rest Hne' Ht) as (l & pre' & E & Hw' & Hlen).
      rewrite E. exists (String c l), pre'.
      split; [reflexivity|split; [exact Hw'|simpl; lia]].
Qed.

Lemma scan_cpuinfo_whole_lines cfg rest : forall n pre,
  (String.length pre < n)%nat -> whole_lines pre = true ->
  exists evs,
    Forall raises_only evs /\
    forall m,
      scan_cpuinfo cfg (pre ++ rest)%string m =
      scan_cpuinfo cfg rest (replay evs m).
Proof.
  induction n as [|n IH]; intros pre Hlen Hw; [lia|].
  destruct pre as [|c t].
  - exists []. split; [constructor|reflexivity].
  - destruct (fgets_bytes_whole_lines 510 (String c t) rest)
      as (l & pre' & E & Hw' & Hlen'); [congruence|exact Hw|].
    destruct (scan_line_runs cfg l) as (evs1 & Hevs1 & Hrun1).
    destruct (IH pre') as (evs2 & Hevs2 & Hrun2); [lia|exact Hw'|].
    exists (Call Fgets :: evs1 ++ evs2). split.
    + constructor; [exact I|]. apply Forall_app. now split.
    + intros m.
      rewrite (scan_cpuinfo_line cfg _ l (pre' ++ rest)%string).
      * rewrite Hrun1, Hrun2. simpl. now rewrite replay_app.
      * unfold CString.fgets. cbn [String.append]. f_equal. exact E.
Qed.

(** A file in which the line [line], read whole by one [fgets], follows a
    run of whole lines: the scan performs the events of that line. *)
Lemma scan_cpuinfo_with_line cfg pre line post evs :
  whole_lines pre = true ->
  CString.fgets 512 (line ++ post)%string = Some (line, post) ->
  (forall m, scan_line cfg line m = Returned tt (replay evs m)) ->
  exists evs1 evs2,
    Forall raises_only evs1 /\ Forall raises_only evs2 /\
    forall m,
      scan_cpuinfo cfg (pre ++ line ++ post)%string m =
      Returned tt (replay (evs1 ++ (Call Fgets :: evs) ++ evs2) m).
Proof.
  intros Hw Hfgets Hline.
  destruct (scan_cpuinfo_whole_lines cfg (line ++ post)%string
              (S (String.length pre)) pre) as (evs1 & Hevs1 & Hrun1);
    [lia|exact Hw|].
  destruct (scan_cpuinfo_runs cfg post) as (evs2 & Hevs2 & Hrun2).
  exists evs1, evs2. split; [exact Hevs1|]. split; [exact Hevs2|].
  intros m. rewrite Hrun1, (scan_cpuinfo_line _ _ _ _ _ Hfgets).
  rewrite Hline, Hrun2, !replay_app. reflexivity.
Qed.

(** The two sample lines, as [fgets] delivers them and as the loop body
    treats them, with or without a newline behind them. *)
Lemma read_model_name_line cfg tail :
  ends_line tail ->
  exists line post,
    (model_name_line ++ tail)%string = (line ++ post)%string /\
    CString.fgets 512 (line ++ post)%string = Some (line, post) /\
    forall m,
      scan_line cfg line m =
      Returned tt
        (replay [Assign IS_V5 TRUE; Assign IS_V6 TRUE; Assign IS_V7 TRUE] m).
Proof.
  intros [-> | (post & ->)].
  - exists model_name_line, EmptyString.
    split; [reflexivity|split; [reflexivity|]].
    intros m. unfold scan_line. destruct (CHAR_UNSIGNED cfg); reflexivity.
  - exists (model_name_line ++ LF)%string, post.
    split; [reflexivity|split; [reflexivity|]].
    intros m. unfold scan_line. destruct (CHAR_UNSIGNED cfg); reflexivity.
Qed.

Lemma read_features_line cfg tail :
  ends_line tail ->
  exists line post,
    (features_line ++ tail)%string = (line ++ post)%string /\
    CString.fgets 512 (line ++ post)%string = Some (line, post) /\
    forall m,
      scan_line cfg line m =
      Returned tt
        (replay [Assign HAS_THUMB TRUE; Assign HAS_VFP TRUE;
                 Assign HAS_VFP3 TRUE] m).
Proof.
  intros [-> | (post & ->)].
  - exists features_line, EmptyString.
    split; [reflexivity|split; [reflexivity|]]. reflexivity.
  - exists (features_line ++ LF)%string, post.
    split; [reflexivity|split; [reflexivity|]]. reflexivity.
Qed.

Lemma scan_features_only cfg tail m :
  tail = EmptyString \/ tail = LF ->
  scan_cpuinfo cfg (features_line ++ tail)%string m =
  Returned tt
    (replay [Call Fgets; Assign HAS_THUMB TRUE; Assign HAS_VFP TRUE;
             Assign HAS_VFP3 TRUE; Call Fgets] m).
Proof.
  intros [-> | ->].
  - rewrite (scan_cpuinfo_line cfg _ features_line EmptyString)
      by reflexivity.
    change (scan_line cfg features_line (emit (Call Fgets) m))
      with (Returned tt (replay [Assign HAS_THUMB TRUE; Assign HAS_VFP TRUE;
                                 Assign HAS_VFP3 TRUE]
                           (emit (Call Fgets) m))).
    lazy beta iota. now rewrite scan_cpuinfo_eof by reflexivity.
  - rewrite (scan_cpuinfo_line cfg _ (features_line ++ LF)%string EmptyString)
      by reflexivity.
    change (scan_line cfg (features_line ++ LF)%string (emit (Call Fgets) m))
      with (Returned tt (replay [Assign HAS_THUMB TRUE; Assign HAS_VFP TRUE;
                                 Assign HAS_VFP3 TRUE]
                           (emit (Call Fgets) m))).
    lazy beta iota. now rewrite scan_cpuinfo_eof by reflexivity.
Qed.

Lemma replay_inj evs1 evs2 :
  (forall m, replay evs1 m = replay evs2 m) -> evs1 = evs2.
Proof.
  intros H. specialize (H boot). apply (f_equal trace) in H.
  now rewrite !trace_replay in H.
Qed.

Lemma assigned_flag_true evs g m :
  Forall raises_only evs -> In (Assign g TRUE) evs ->
  read g (flags (replay evs m)) = TRUE.
Proof.
  intros Hevs Hin. rewrite read_replay by exact Hevs.
  assert (E : existsb (assigns g) evs = true).
  { apply existsb_exists. exists (Assign g TRUE). split; [exact Hin|].
    now destruct g. }
  rewrite E. apply orb_true_r.
Qed.

(** *** The two halves of the fallback branch *)

Lemma armv8_detected_dec cfg os :
  armv8_detected cfg os \/ ~ armv8_detected cfg os.
Proof.
  unfold armv8_detected, armv8_machine.
  destruct (HAVE_SYS_UTSNAME_H cfg); [|right; intros [H _]; discriminate].
  destruct (utsname_machine os) as [mach|];
    [|right; intros (_ & mach & H & _); discriminate].
  destruct (String.prefix "aarch64" mach) eqn:E1; [left; eauto|].
  destruct (String.prefix "armv8" mach) eqn:E2; [left; eauto|].
  right. intros (_ & mach' & H & [H1 | H1]); inversion H; subst; congruence.
Qed.

Lemma uname_block_detected cfg os m :
  armv8_detected cfg os ->
  uname_block cfg os m = Returned tt (replay (Call Uname :: armv8_events) m).
Proof.
  intros (Hcfg & mach & Hos & Hm). now apply (uname_block_armv8 _ _ mach).
Qed.

Lemma uname_block_quiet cfg os m :
  uname_succeeds cfg os -> ~ armv8_detected cfg os ->
  exists evs,
    uname_block cfg os m = Returned tt (replay evs m) /\
    Forall raises_only evs /\
    flags (replay evs m) = flags m.
Proof.
  intros Hok Hno. unfold uname_succeeds in Hok.
  destruct (HAVE_SYS_UTSNAME_H cfg) eqn:Hcfg.
  - destruct (utsname_machine os) as [mach|] eqn:Hos;
      [|now destruct (Hok eq_refl)].
    exists [Call Uname]. split; [|split; [repeat constructor|reflexivity]].
    apply (uname_block_other _ _ mach); try assumption.
    intros Hm. apply Hno. split; [exact Hcfg|eauto].
  - exists []. split; [|split; [constructor|reflexivity]].
    unfold uname_block. now rewrite Hcfg.
Qed.

Lemma init_cpuinfo_closed cfg os m :
  proc_cpuinfo os = None ->
  init_cpuinfo cfg os m = Returned tt (replay [Call Fopen] m).
Proof. intros H. unfold init_cpuinfo, bind, libc. now rewrite H. Qed.

Lemma init_cpuinfo_open cfg os contents evs m :
  proc_cpuinfo os = Some contents ->
  (forall m, scan_cpuinfo cfg contents m = Returned tt (replay evs m)) ->
  init_cpuinfo cfg os m =
  Returned tt (replay (Call Fopen :: evs ++ [Call Fclose]) m).
Proof.
  intros H Hscan. unfold init_cpuinfo, bind, libc. rewrite H, Hscan.
  simpl. now rewrite replay_app.
Qed.

(** **** C7 *)

(** C7: in a fallback build, when /proc/cpuinfo cannot be opened, the call
    returns, and it returns the machine [m0] that the uname block left,
    with the failed [fopen] as the only further event: every flag has the
    value it had before the cpuinfo step.  That value is [TRUE] for all
    flags when the uname block saw an ARMv8 machine, and otherwise the
    value from before the call. *)
Theorem cpuinfo_unavailable (cfg : config) (os : host) (m : machine) :
  fallback_build cfg ->
  uname_succeeds cfg os ->
  proc_cpuinfo os = None ->
  exists m0,
    uname_block cfg os m = Returned tt m0 /\
    mono_hwcap_arch_init cfg os m = Returned tt (emit (Call Fopen) m0) /\
    flags (emit (Call Fopen) m0) = flags m0 /\
    (armv8_detected cfg os -> flags m0 = all_true) /\
    (~ armv8_detected cfg os -> flags m0 = flags m).
Proof.
  intros Hfb Hok Hfile.
  assert (Hrun : forall m0, uname_block cfg os m = Returned tt m0 ->
            mono_hwcap_arch_init cfg os m = Returned tt (emit (Call Fopen) m0)).
  { intros m0 E. rewrite arch_init_fallback by exact Hfb.
    unfold init_fallback, bind. rewrite E.
    now rewrite init_cpuinfo_closed by exact Hfile. }
  destruct (armv8_detected_dec cfg os) as [Hd|Hd].
  - exists (replay (Call Uname :: armv8_events) m).
    pose proof (uname_block_detected cfg os m Hd) as E.
    repeat split; auto; [|tauto].
    intros _. rewrite <- (app_nil_r armv8_events).
    apply flags_after_armv8. constructor.
  - destruct (uname_block_quiet cfg os m Hok Hd) as (evs & E & _ & Hflags).
    exists (replay evs m). repeat split; auto. tauto.
Qed.

Lemma cpuinfo_unavailable_witness :
  fallback_build android_build /\
  uname_succeeds android_build no_cpuinfo_host /\
  proc_cpuinfo no_cpuinfo_host = None /\
  exists m0,
    uname_block android_build no_cpuinfo_host boot = Returned tt m0 /\
    mono_hwcap_arch_init android_build no_cpuinfo_host boot
    = Returned tt (emit (Call Fopen) m0) /\
    flags (emit (Call Fopen) m0) = flags m0 /\
    (armv8_detected android_build no_cpuinfo_host -> flags m0 = all_true) /\
    (~ armv8_detected android_build no_cpuinfo_host -> flags m0 = flags boot).
Proof.
  assert (H1 : fallback_build android_build) by (split; reflexivity).
  assert (H2 : uname_succeeds android_build no_cpuinfo_host)
    by (intros _; discriminate).
  split; [exact H1|]. split; [exact H2|]. split; [reflexivity|].
  exact (cpuinfo_unavailable android_build no_cpuinfo_host boot H1 H2 eq_refl).
Defined.

(** **** C2 *)

(** C2: in a fallback build whose uname block sees an ARMv8 machine, the
    scan of /proc/cpuinfo is not skipped.  The call is the cpuinfo step run
    on the machine the uname block left; its events are the uname call, the
    eight assignments, then [fopen] and the events [evs] of the scan; all
    assignments of the scan write [TRUE]; and when the file has the ARMv7
    model-name line as one of its lines, the scan assigns [is_v7] again. *)
Theorem uname_then_cpuinfo (cfg : config) (os : host) (m : machine) :
  fallback_build cfg ->
  armv8_detected cfg os ->
  mono_hwcap_arch_init cfg os m =
  init_cpuinfo cfg os (replay (Call Uname :: armv8_events) m) /\
  exists evs,
    mono_hwcap_arch_init cfg os m =
    Returned tt (replay (Call Uname :: armv8_events ++ Call Fopen :: evs) m) /\
    (forall g v, In (Assign g v) evs -> v = TRUE) /\
    (forall pre tail,
        whole_lines pre = true ->
        ends_line tail ->
        proc_cpuinfo os = Some (pre ++ model_name_line ++ tail)%string ->
        In (Assign IS_V7 TRUE) evs).
Proof.
  intros Hfb Hd.
  assert (E : mono_hwcap_arch_init cfg os m =
              init_cpuinfo cfg os (replay (Call Uname :: armv8_events) m)).
  { rewrite arch_init_fallback by exact Hfb. unfold init_fallback, bind.
    now rewrite uname_block_detected. }
  split; [exact E|]. rewrite E.
  assert (Hsplit : forall evs,
            replay (Call Uname :: armv8_events ++ Call Fopen :: evs) m =
            replay (Call Fopen :: evs) (replay (Call Uname :: armv8_events) m)).
  { intros evs. change (Call Uname :: armv8_events ++ Call Fopen :: evs)
      with ((Call Uname :: armv8_events) ++ Call Fopen :: evs).
    apply replay_app. }
  destruct (proc_cpuinfo os) as [contents|] eqn:Hfile.
  - destruct (scan_cpuinfo_runs cfg contents) as (sevs & Hsevs & Hscan).
    exists (sevs ++ [Call Fclose]). split; [|split].
    + rewrite Hsplit. now apply init_cpuinfo_open with (contents := contents).
    + intros g v Hin. apply in_app_or in Hin as [Hin|[Hin|[]]];
        [|discriminate].
      rewrite Forall_forall in Hsevs. exact (Hsevs _ Hin).
    + intros pre tail Hw Htail Hc.
      assert (contents = (pre ++ model_name_line ++ tail)%string) as ->
        by congruence.
      destruct (read_model_name_line cfg tail Htail)
        as (line & post & Esplit & Hfgets & Hline).
      rewrite Esplit in Hscan.
      destruct (scan_cpuinfo_with_line cfg pre line post _ Hw Hfgets Hline)
        as (evs1 & evs2 & _ & _ & Hshape).
      assert (sevs = evs1 ++ (Call Fgets :: [Assign IS_V5 TRUE;
                Assign IS_V6 TRUE; Assign IS_V7 TRUE]) ++ evs2) as ->.
      { apply replay_inj. intros m'.
        pose proof (Hscan m') as H1. rewrite Hshape in H1. congruence. }
      apply in_or_app. left. apply in_or_app. right. simpl. tauto.
  - exists []. split; [|split].
    + rewrite Hsplit. now apply init_cpuinfo_closed.
    + intros g v [].
    + intros pre tail _ _ Hc. discriminate.
Qed.

Lemma uname_then_cpuinfo_witness :
  fallback_build android_build /\
  armv8_detected android_build armv8_host /\
  mono_hwcap_arch_init android_build armv8_host boot =
  init_cpuinfo android_build armv8_host
    (replay (Call Uname :: armv8_events) boot) /\
  exists evs,
    mono_hwcap_arch_init android_build armv8_host boot =
    Returned tt
      (replay (Call Uname :: armv8_events ++ Call Fopen :: evs) boot) /\
    (forall g v, In (Assign g v) evs -> v = TRUE) /\
    (forall pre tail,
        whole_lines pre = true ->
        ends_line tail ->
        proc_cpuinfo armv8_host
        = Some (pre ++ model_name_line ++ tail)%string ->
        In (Assign IS_V7 TRUE) evs).
Proof.
  assert (H1 : fallback_build android_build) by (split; reflexivity).
  assert (H2 : armv8_detected android_build armv8_host).
  { split; [reflexivity|]. exists "aarch64"%string.
    split; [reflexivity|left; reflexivity]. }
  split; [exact H1|]. split; [exact H2|].
  exact (uname_then_cpuinfo android_build armv8_host boot H1 H2).
Defined.

(** *** The auxiliary-vector branch *)

(** **** C5 *)

(** C5: in an auxiliary-vector build started with all flags [FALSE], when
    [AT_HWCAP] is exactly the VFP bit 0x00000040 and [AT_PLATFORM] gives no
    version (the entry is absent, or the second byte of the string is below
    ['5']), the call returns with [has_vfp] [TRUE] and the seven other
    flags [FALSE]. *)
Theorem auxv_vfp_only (cfg : config) (os : host) (m : machine) :
  auxv_build cfg ->
  flags m = initial_flags ->
  AT_HWCAP os = 0x00000040 ->
  (AT_PLATFORM os = None \/
   exists str c,
     AT_PLATFORM os = Some str /\
     CString.index str 1 = Some c /\
     CString.char_to_int (negb (CHAR_UNSIGNED cfg)) c < lit "5") ->
  exists m',
    mono_hwcap_arch_init cfg os m = Returned tt m' /\
    flags m' =
    {| mono_hwcap_arm_is_v5 := FALSE;
       mono_hwcap_arm_is_v6 := FALSE;
       mono_hwcap_arm_is_v7 := FALSE;
       mono_hwcap_arm_has_vfp := TRUE;
       mono_hwcap_arm_has_vfp3 := FALSE;
       mono_hwcap_arm_has_vfp3_d16 := FALSE;
       mono_hwcap_arm_has_thumb := FALSE;
       mono_hwcap_arm_has_thumb2 := FALSE |}.
Proof.
  intros Hb Hinit Hcap Hplat.
  rewrite arch_init_auxv by exact Hb.
  unfold init_auxv, bind, libc. rewrite Hcap.
  destruct Hplat as [-> | (str & c & -> & Hc & Hlt)].
  - eexists. split; [reflexivity|]. simpl. now rewrite Hinit.
  - unfold load, CString.byte_at. rewrite Hc.
    change (lit "5") with 53 in Hlt.
    change (lit "5") with 53. change (lit "6") with 54.
    change (lit "7") with 55.
    cbn [Z.eqb Z.land Pos.land negb when assign ret bind].
    destruct (53 <=? _) eqn:E5; [lia|].
    destruct (54 <=? _) eqn:E6; [lia|].
    destruct (55 <=? _) eqn:E7; [lia|].
    eexists. split; [reflexivity|]. simpl. now rewrite Hinit.
Qed.

Lemma auxv_vfp_only_witness :
  exists m',
    mono_hwcap_arch_init linux_build (sample_host 0x00000040 None None None)
      boot = Returned tt m' /\
    flags m' = write HAS_VFP TRUE initial_flags.
Proof.
  refine (auxv_vfp_only linux_build (sample_host 0x00000040 None None None)
            boot _ eq_refl eq_refl (or_introl eq_refl)).
  split; reflexivity.
Defined.

(** **** C6 *)

(** C6: in an auxiliary-vector build, when the [AT_PLATFORM] string has
    ['7'] as its second character, each of the three comparisons against
    ['5'], ['6'] and ['7'] succeeds: the call returns with [is_v5], [is_v6]
    and [is_v7] all [TRUE], whatever [AT_HWCAP] is and whatever the flags
    were before. *)
Theorem auxv_platform_v7 (cfg : config) (os : host) (m : machine)
    (c : ascii) (rest : string) :
  auxv_build cfg ->
  c <> CString.NUL ->
  AT_PLATFORM os = Some (String c (String "7" rest)) ->
  exists m',
    mono_hwcap_arch_init cfg os m = Returned tt m' /\
    mono_hwcap_arm_is_v5 (flags m') = TRUE /\
    mono_hwcap_arm_is_v6 (flags m') = TRUE /\
    mono_hwcap_arm_is_v7 (flags m') = TRUE.
Proof.
  intros Hb Hc Hplat.
  rewrite arch_init_auxv by exact Hb.
  assert (Hidx : CString.index (String c (String "7" rest)) 1 = Some "7"%char)
    by reflexivity.
  assert (Hval : CString.char_to_int (negb (CHAR_UNSIGNED cfg)) "7" = 55).
  { now destruct (CHAR_UNSIGNED cfg). }
  unfold init_auxv, bind, libc, load, CString.byte_at. rewrite Hplat, Hidx.
  unfold ret. rewrite Hval.
  change (lit "5" <=? 55) with true. change (lit "6" <=? 55) with true.
  change (lit "7" <=? 55) with true.
  unfold when, assign, ret.
  repeat match goal with
         | |- context [if ?b then _ else _] => destruct b
         end;
    (eexists; split; [reflexivity|]);
    simpl; destruct (flags m); simpl; auto.
Qed.

Lemma auxv_platform_v7_witness :
  exists m',
    mono_hwcap_arch_init linux_build armv7_host boot = Returned tt m' /\
    mono_hwcap_arm_is_v5 (flags m') = TRUE /\
    mono_hwcap_arm_is_v6 (flags m') = TRUE /\
    mono_hwcap_arm_is_v7 (flags m') = TRUE.
Proof.
  refine (auxv_platform_v7 linux_build armv7_host boot "v" "l" _ _ eq_refl).
  - split; reflexivity.
  - discriminate.
Defined.

(** *** mono_hwcap_print *)

Lemma append_assoc (a b c : string) :
  ((a ++ b) ++ c)%string = (a ++ (b ++ c))%string.
Proof. induction a as [|x a IH]; simpl; [reflexivity|now rewrite IH]. Qed.

(** **** C8 *)

(** C8: for every state of the flags and every sink, [mono_hwcap_print]
    appends to the sink exactly the eight lines of [report]: one per flag,
    in the order is_v5, is_v6, is_v7, has_vfp, has_vfp3, has_vfp3_d16,
    has_thumb, has_thumb2, each being the flag's C identifier followed by
    [ = 0] or [ = 1] and a newline; the text appended holds eight
    newlines. *)
Theorem print_writes_eight_lines (g : hwcap_arm) (f : string) :
  mono_hwcap_print g f = (f ++ String.concat "" (report g))%string /\
  report g = map (fun x => flag_line (c_name x) (read x g))
               [IS_V5; IS_V6; IS_V7; HAS_VFP; HAS_VFP3; HAS_VFP3_D16;
                HAS_THUMB; HAS_THUMB2] /\
  List.length (report g) = 8%nat /\
  newlines (String.concat "" (report g)) = 8%nat /\
  (forall line, In line (report g) ->
     exists x, line = (c_name x ++ " = 0" ++ LF)%string \/
               line = (c_name x ++ " = 1" ++ LF)%string).
Proof.
  split; [|split; [reflexivity|split; [reflexivity|split]]].
  - unfold mono_hwcap_print, g_fprintf. rewrite !append_assoc. f_equal.
    destruct g as [[] [] [] [] [] [] [] []]; reflexivity.
  - destruct g as [[] [] [] [] [] [] [] []]; reflexivity.
  - intros line Hin. unfold report in Hin. apply in_map_iff in Hin.
    destruct Hin as (x & <- & _). exists x. unfold flag_line.
    destruct (read x g); [right|left]; reflexivity.
Qed.

(** ** Further properties of the probe *)

(** *** Computations described by their events *)

Lemma emits_ret {A} P (a : A) : emits P (ret a).
Proof. exists [], (inl a). split; [constructor|reflexivity]. Qed.

Lemma emits_abort {A} P (e : fault) : emits P (@abort A e).
Proof. exists [], (inr e). split; [constructor|reflexivity]. Qed.

Lemma emits_assign (P : event -> Prop) g v :
  P (Assign g v) -> emits P (assign g v).
Proof.
  intros H. exists [Assign g v], (inl tt).
  split; [repeat constructor; exact H|reflexivity].
Qed.

Lemma emits_libc {A} (P : event -> Prop) f (a : A) :
  P (Call f) -> emits P (libc f a).
Proof.
  intros H. exists [Call f], (inl a).
  split; [repeat constructor; exact H|reflexivity].
Qed.

Lemma emits_bind {A B} P (c : M A) (k : A -> M B) :
  emits P c -> (forall a, emits P (k a)) -> emits P (bind c k).
Proof.
  intros (evs & r & Hevs & Hc) Hk. destruct r as [a|e].
  - destruct (Hk a) as (evs' & r' & Hevs' & Hka).
    exists (evs ++ evs'), r'. split.
    + apply Forall_app. now split.
    + intros m. unfold bind. rewrite Hc. simpl. now rewrite Hka, replay_app.
  - exists evs, (inr e). split; [exact Hevs|].
    intros m. unfold bind. now rewrite Hc.
Qed.

Lemma emits_when P b c : emits P c -> emits P (when b c).
Proof. destruct b; simpl; [auto|intros _; apply emits_ret]. Qed.

Lemma emits_load P sg s i : emits P (load sg s i).
Proof. apply emits_ret. Qed.

Lemma emits_weaken {A} (P Q : event -> Prop) (c : M A) :
  (forall e, P e -> Q e) -> emits P c -> emits Q c.
Proof.
  intros HPQ (evs & r & Hevs & Hc). exists evs, r. split; [|exact Hc].
  eapply Forall_impl; [exact HPQ|exact Hevs].
Qed.

Lemma emits_scan_cpuinfo P cfg :
  P (Call Fgets) ->
  (forall line, emits P (scan_line cfg line)) ->
  forall file, emits P (scan_cpuinfo cfg file).
Proof.
  intros Hfgets Hline file.
  apply (scan_cpuinfo_elim cfg
           (fun file _ _ => emits P (scan_cpuinfo cfg file)));
    [| |exact boot]; clear file.
  - intros file line rest E _ IH _.
    specialize (IH tt boot).
    assert (S : emits P (bind (libc Fgets tt)
                           (fun _ => bind (scan_line cfg line)
                                       (fun _ => scan_cpuinfo cfg rest)))).
    { apply emits_bind; [now apply emits_libc|intros _].
      apply emits_bind; [apply Hline|intros _; exact IH]. }
    destruct S as (evs & r & Hevs & HS). exists evs, r. split; [exact Hevs|].
    intros m. rewrite <- HS, (scan_cpuinfo_line _ _ _ _ _ E).
    unfold bind, libc. destruct (scan_line cfg line _) as [[]|]; reflexivity.
  - intros file E m _. exists [Call Fgets], (inl tt).
    split; [repeat constructor; exact Hfgets|].
    intros m'. now rewrite scan_cpuinfo_eof.
Qed.

(** One step of a proof that a straight-line block emits only [P]-events;
    the side conditions on single events are left to [tac]. *)
Ltac emits_steps tac :=
  repeat first
    [ apply emits_bind; [|intros ?]
    | apply emits_when
    | apply emits_ret
    | apply emits_abort
    | apply emits_load
    | apply emits_assign; tac
    | apply emits_libc; tac
    | match goal with
      | |- emits _ (if ?b then _ else _) => destruct b
      | |- emits _ (match ?x with _ => _ end) => destruct x
      end ].

Lemma read_join g a b : read g (join a b) = read g a || read g b.
Proof. destruct g; reflexivity. Qed.

Lemma read_boot g : read g (flags boot) = false.
Proof. destruct g; reflexivity. Qed.

(** *** What a call adds to the flags it finds *)

(** X1: the flags after a call that returns are, flag by flag, the
    disjunction of the flags before the call and of the flags the same call
    produces when started from the all-[FALSE] defaults.  The probe never
    reads a flag: what it detects does not depend on what was set
    before. *)
Theorem arch_init_joins (cfg : config) (os : host) (m m' : machine) :
  mono_hwcap_arch_init cfg os m = Returned tt m' ->
  exists d,
    mono_hwcap_arch_init cfg os boot = Returned tt d /\
    flags m' = join (flags m) (flags d).
Proof.
  destruct (straight_mono_hwcap_arch_init cfg os) as (evs & r & Hevs & Hrun).
  intros H. rewrite Hrun in H.
  destruct r as [[]|e]; simpl in H; [|discriminate].
  injection H as <-.
  exists (replay evs boot). split; [now rewrite Hrun|].
  apply flags_ext. intros g.
  rewrite read_join, !read_replay by exact Hevs.
  now rewrite read_boot.
Qed.

Lemma arch_init_joins_witness :
  exists m' d,
    mono_hwcap_arch_init android_build armv7_host preset = Returned tt m' /\
    mono_hwcap_arch_init android_build armv7_host boot = Returned tt d /\
    flags m' = join (flags preset) (flags d) /\
    mono_hwcap_arm_has_thumb2 (flags d) = FALSE /\
    mono_hwcap_arm_has_thumb2 (flags m') = TRUE.
Proof.
  eexists.
  destruct (arch_init_joins android_build armv7_host preset _ eq_refl)
    as (d & Hd & Hflags).
  exists d. split; [reflexivity|]. split; [exact Hd|].
  split; [exact Hflags|].
  assert (E : exists d0,
             mono_hwcap_arch_init android_build armv7_host boot
             = Returned tt d0 /\
             mono_hwcap_arm_has_thumb2 (flags d0) = FALSE)
    by (eexists; split; reflexivity).
  destruct E as (d0 & E & Hd0). rewrite E in Hd. injection Hd as <-.
  split; [exact Hd0|reflexivity].
Defined.

(** *** Faults of the fallback branch *)

(** X2: in a fallback build with [<sys/utsname.h>], when uname fails the
    [g_assert] stops the call at once: the run ends in a fault with the
    uname call as its only event, no flag changed and /proc/cpuinfo never
    opened. *)
Theorem uname_failure_aborts (cfg : config) (os : host) (m : machine) :
  fallback_build cfg ->
  HAVE_SYS_UTSNAME_H cfg = true ->
  utsname_machine os = None ->
  mono_hwcap_arch_init cfg os m = Faulted AssertionFailed (emit (Call Uname) m)
  /\ flags (emit (Call Uname) m) = flags m
  /\ trace (emit (Call Uname) m) = trace m ++ [Call Uname].
Proof.
  intros Hfb Hcfg Hos. split; [|split; reflexivity].
  rewrite arch_init_fallback by exact Hfb.
  unfold init_fallback, uname_block, init_uname, bind, libc.
  now rewrite Hcfg, Hos.
Qed.

Lemma uname_failure_aborts_witness :
  mono_hwcap_arch_init android_build no_uname_host boot
  = Faulted AssertionFailed (emit (Call Uname) boot)
  /\ flags (emit (Call Uname) boot) = flags boot
  /\ trace (emit (Call Uname) boot) = trace boot ++ [Call Uname].
Proof.
  refine (uname_failure_aborts android_build no_uname_host boot _ eq_refl
            eq_refl).
  split; reflexivity.
Defined.

Lemma returned_uname_succeeds cfg os m m' :
  fallback_build cfg ->
  mono_hwcap_arch_init cfg os m = Returned tt m' ->
  uname_succeeds cfg os.
Proof.
  intros Hfb H Hcfg Hos. rewrite arch_init_fallback in H by exact Hfb.
  unfold init_fallback, uname_block, init_uname, bind, libc in H.
  rewrite Hcfg, Hos in H. discriminate.
Qed.



Lemma emits_libc_bind {A B} (P : event -> Prop) f (a : A) (k : A -> M B) :
  P (Call f) -> emits P (k a) -> emits P (bind (libc f a) k).
Proof.
  intros Hf (evs & r & Hevs & Hk). exists (Call f :: evs), r.
  split; [now constructor|]. intros m. unfold bind, libc. now rewrite Hk.
Qed.

Lemma final_close {A} (r : A + fault) m : final (close r m) = m.
Proof. now destruct r. Qed.

Lemma replay_spares g evs m :
  Forall (spares g) evs -> read g (flags (replay evs m)) = read g (flags m).
Proof.
  intros H. rewrite read_replay.
  - assert (E : existsb (assigns g) evs = false).
    { induction H as [|e evs [_ He] _ IH]; simpl; [reflexivity|].
      now rewrite He, IH. }
    rewrite E. apply orb_false_r.
  - eapply Forall_impl; [|exact H]. now intros e [He _].
Qed.

(** *** Thumb-2 *)

Ltac spares_event := split; [first [exact I | reflexivity]|reflexivity].

Lemma uname_block_spares cfg os g :
  ~ armv8_detected cfg os -> emits (spares g) (uname_block cfg os).
Proof.
  intros Hd. unfold uname_block.
  destruct (HAVE_SYS_UTSNAME_H cfg) eqn:Hcfg; [|apply emits_ret].
  unfold init_uname. apply emits_libc_bind; [spares_event|].
  destruct (utsname_machine os) as [mach|] eqn:Hos; [|apply emits_abort].
  change 7%nat with (String.length "aarch64").
  change 5%nat with (String.length "armv8").
  rewrite !strncmp_literal by reflexivity.
  destruct (String.prefix "aarch64" mach) eqn:E1.
  { destruct Hd. split; [exact Hcfg|]. exists mach. split; [easy|now left]. }
  destruct (String.prefix "armv8" mach) eqn:E2.
  { destruct Hd. split; [exact Hcfg|]. exists mach. split; [easy|now right]. }
  apply emits_ret.
Qed.

Lemma init_cpuinfo_spares_thumb2 cfg os :
  emits (spares HAS_THUMB2) (init_cpuinfo cfg os).
Proof.
  unfold init_cpuinfo.
  apply emits_bind; [apply emits_libc; spares_event|intros [contents|]];
    [|apply emits_ret].
  apply emits_bind; [|intros _; apply emits_libc; spares_event].
  apply emits_scan_cpuinfo; [spares_event|].
  intros line. unfold scan_line. emits_steps spares_event.
Qed.

(** X4: Thumb-2 is never detected.  The only assignment to
    [mono_hwcap_arm_has_thumb2] is the one in the ARMv8 block of the
    fallback branch: on every other run (an auxiliary-vector build, a
    Darwin build, or a fallback build whose uname block is absent or sees
    no ARMv8 machine) the flag keeps the value it had, whether the run
    returns or faults. *)
Theorem thumb2_only_from_armv8 (cfg : config) (os : host) (m : machine) :
  ~ (fallback_build cfg /\ armv8_detected cfg os) ->
  mono_hwcap_arm_has_thumb2 (flags (final (mono_hwcap_arch_init cfg os m)))
  = mono_hwcap_arm_has_thumb2 (flags m).
Proof.
  intros Hno.
  assert (H : emits (spares HAS_THUMB2) (mono_hwcap_arch_init cfg os)).
  { unfold mono_hwcap_arch_init.
    destruct (HAVE_SYS_AUXV_H cfg && negb (PLATFORM_ANDROID cfg)) eqn:E1.
    { unfold init_auxv. emits_steps spares_event. }
    destruct (APPLE cfg) eqn:E2.
    { unfold init_apple. emits_steps spares_event. }
    unfold init_fallback. apply emits_bind.
    - apply uname_block_spares. intros Hd. apply Hno.
      split; [split; assumption|exact Hd].
    - intros _. apply init_cpuinfo_spares_thumb2. }
  destruct H as (evs & r & Hevs & Hrun).
  rewrite Hrun, final_close.
  exact (replay_spares HAS_THUMB2 evs m Hevs).
Qed.

Lemma thumb2_only_from_armv8_witness :
  mono_hwcap_arm_has_thumb2
    (flags (final (mono_hwcap_arch_init linux_build armv7_host boot)))
  = mono_hwcap_arm_has_thumb2 (flags boot).
Proof.
  apply (thumb2_only_from_armv8 linux_build armv7_host boot).
  intros [[H _] _]. discriminate H.
Defined.

(** *** The stream is closed *)

Lemma calls_app f evs1 evs2 :
  calls f (evs1 ++ evs2) = (calls f evs1 + calls f evs2)%nat.
Proof. unfold calls. now rewrite filter_app, length_app. Qed.

Lemma loop_events_calls evs :
  Forall loop_event evs -> calls Fopen evs = 0%nat /\ calls Fclose evs = 0%nat.
Proof.
  induction 1 as [|e evs He _ [IH1 IH2]]; [now split|].
  destruct e as [g v|f]; simpl in He; [now split|].
  subst f. now split.
Qed.

Lemma scan_cpuinfo_loop_events cfg file :
  exists evs,
    Forall loop_event evs /\
    forall m, scan_cpuinfo cfg file m = Returned tt (replay evs m).
Proof.
  assert (H : emits loop_event (scan_cpuinfo cfg file)).
  { apply emits_scan_cpuinfo; [reflexivity|].
    intros line. unfold scan_line. emits_steps reflexivity. }
  destruct H as (evs & r & Hevs & Hrun).
  exists evs. split; [exact Hevs|]. intros m.
  destruct (returns_scan_cpuinfo cfg file m) as ([] & m' & E).
  rewrite Hrun in *. destruct r as [[]|e]; [reflexivity|discriminate].
Qed.

(** X5: in a fallback build, a call that returns has called [fopen] exactly
    once; when the open succeeded it has called [fclose] exactly once, as
    its last event, and when the open failed it has not called [fclose] at
    all.  No path through the loop leaves the stream open. *)
Theorem cpuinfo_closed_once (cfg : config) (os : host) (m m' : machine) :
  fallback_build cfg ->
  mono_hwcap_arch_init cfg os m = Returned tt m' ->
  exists evs,
    trace m' = trace m ++ evs /\
    calls Fopen evs = 1%nat /\
    calls Fclose evs
    = match proc_cpuinfo os with Some _ => 1%nat | None => 0%nat end /\
    (proc_cpuinfo os <> None -> exists before, evs = before ++ [Call Fclose]).
Proof.
  intros Hfb Hrun.
  assert (Hok : uname_succeeds cfg os).
  { exact (returned_uname_succeeds cfg os m m' Hfb Hrun). }
  assert (Hu : exists uevs,
             uname_block cfg os m = Returned tt (replay uevs m) /\
             calls Fopen uevs = 0%nat /\ calls Fclose uevs = 0%nat).
  { destruct (armv8_detected_dec cfg os) as [Hd|Hd].
    - exists (Call Uname :: armv8_events).
      split; [now apply uname_block_detected|now split].
    - unfold uname_succeeds in Hok. unfold uname_block.
      destruct (HAVE_SYS_UTSNAME_H cfg) eqn:Hcfg.
      + destruct (utsname_machine os) as [mach|] eqn:Hos;
          [|now destruct (Hok eq_refl)].
        exists [Call Uname]. split; [|now split].
        pose proof (uname_block_other cfg os mach m Hcfg Hos) as E.
        unfold uname_block in E. rewrite Hcfg in E. apply E.
        intros Hm. apply Hd. split; [exact Hcfg|eauto].
      + exists []. now split. }
  destruct Hu as (uevs & Eu & Hu1 & Hu2).
  rewrite arch_init_fallback in Hrun by exact Hfb.
  unfold init_fallback, bind in Hrun. rewrite Eu in Hrun.
  destruct (proc_cpuinfo os) as [contents|] eqn:Hfile.
  - destruct (scan_cpuinfo_loop_events cfg contents) as (sevs & Hs & Hscan).
    rewrite (init_cpuinfo_open cfg os contents sevs _ Hfile Hscan) in Hrun.
    assert (m' = replay (uevs ++ Call Fopen :: sevs ++ [Call Fclose]) m)
      as -> by (rewrite replay_app; congruence).
    destruct (loop_events_calls sevs Hs) as [Hs1 Hs2].
    exists (uevs ++ Call Fopen :: sevs ++ [Call Fclose]).
    split; [apply trace_replay|]. split; [|split].
    + rewrite calls_app, Hu1.
      change (Call Fopen :: sevs ++ [Call Fclose])
        with ([Call Fopen] ++ sevs ++ [Call Fclose]).
      now rewrite !calls_app, Hs1.
    + rewrite calls_app, Hu2.
      change (Call Fopen :: sevs ++ [Call Fclose])
        with ([Call Fopen] ++ sevs ++ [Call Fclose]).
      rewrite !calls_app, Hs2. reflexivity.
    + intros _. exists (uevs ++ Call Fopen :: sevs).
      now rewrite <- app_assoc.
  - rewrite (init_cpuinfo_closed cfg os _ Hfile) in Hrun.
    assert (m' = replay (uevs ++ [Call Fopen]) m)
      as -> by (rewrite replay_app; congruence).
    exists (uevs ++ [Call Fopen]).
    split; [apply trace_replay|]. split; [|split].
    + now rewrite calls_app, Hu1.
    + now rewrite calls_app, Hu2.
    + intros H. now destruct H.
Qed.

Lemma cpuinfo_closed_once_witness :
  exists m' evs,
    mono_hwcap_arch_init android_build armv7_host boot = Returned tt m' /\
    trace m' = trace boot ++ evs /\
    calls Fopen evs = 1%nat /\
    calls Fclose evs = 1%nat /\
    exists before, evs = before ++ [Call Fclose].
Proof.
  eexists.
  destruct (cpuinfo_closed_once android_build armv7_host boot _
              (conj eq_refl eq_refl) eq_refl)
    as (evs & Ht & H1 & H2 & H3).
  exists evs. split; [reflexivity|]. split; [exact Ht|].
  split; [exact H1|]. split; [exact H2|].
  apply H3. discriminate.
Defined.

(** *** The VFP tokens of a Features line *)

Lemma starts_with_app p q : forall h,
  CString.starts_with (p ++ q)%string h = true ->
  CString.starts_with p h = true.
Proof.
  induction p as [|c p IH]; intros h H; [reflexivity|].
  destruct h as [|d h]; cbn [String.append CString.starts_with] in *;
    [discriminate|].
  apply andb_prop in H as [Hc H]. rewrite Hc. now apply IH.
Qed.

(** A needle that is found has every one of its prefixes found. *)
Lemma strstr_found_prefix p q : forall h,
  found (CString.strstr h (p ++ q)%string) = true ->
  found (CString.strstr h p) = true.
Proof.
  induction h as [|c t IH]; intros H.
  - simpl in *.
    destruct (CString.starts_with (p ++ q)%string "") eqn:E; [|discriminate].
    now rewrite (starts_with_app _ _ _ E).
  - cbn [CString.strstr] in *.
    destruct (CString.starts_with p (String c t)) eqn:Ep; [reflexivity|].
    destruct (CString.starts_with (p ++ q)%string (String c t)) eqn:E.
    + rewrite (starts_with_app _ _ _ E) in Ep. discriminate.
    + destruct (CString.is_nul c); [discriminate|now apply IH].
Qed.

Lemma other_assign_vfp_monotone g v :
  g <> HAS_VFP -> g <> HAS_VFP3 -> g <> HAS_VFP3_D16 ->
  preserves vfp_monotone (assign g v).
Proof.
  intros H1 H2 H3 m Hm. simpl. unfold vfp_monotone in *.
  destruct (flags m), g; simpl in *; try congruence; exact Hm.
Qed.

Lemma preserves_load I sg s i : preserves I (load sg s i).
Proof. apply preserves_ret. Qed.

Ltac vfp_steps :=
  repeat first
    [ apply preserves_bind; [|intros ?]
    | apply preserves_when
    | apply preserves_load
    | apply preserves_ret
    | apply other_assign_vfp_monotone; discriminate ].

Lemma vfp_monotone_scan_line cfg line :
  preserves vfp_monotone (scan_line cfg line).
Proof.
  unfold scan_line. destruct (_ || _).
  - destruct (CString.strstr line "(v"); vfp_steps.
  - destruct (_ =? _); [|apply preserves_ret].
    apply preserves_bind; [vfp_steps|intros _].
    pose proof (strstr_found_prefix "vfpv3" "-d16" line) as H16.
    pose proof (strstr_found_prefix "vfp" "v3" line) as H3.
    change ("vfpv3" ++ "-d16")%string with "vfpv3-d16" in H16.
    change ("vfp" ++ "v3")%string with "vfpv3" in H3.
    intros m Hm. unfold bind, when, assign, ret.
    destruct (found (CString.strstr line "vfpv3-d16"));
      [rewrite (H16 eq_refl) in *|];
      (destruct (found (CString.strstr line "vfpv3"));
       [rewrite (H3 eq_refl)|]);
      try destruct (found (CString.strstr line "vfp"));
      unfold vfp_monotone in *; simpl in *; destruct (flags m);
      simpl in *; unfold TRUE in *; intuition congruence.
Qed.

(** X6: on the fallback branch the VFP flags are nested:
    [has_vfp3_d16 => has_vfp3 => has_vfp] holds after the call whenever it
    held before (as it does at process start).  In a Features line the
    token "vfpv3-d16" contains "vfpv3", and "vfpv3" contains "vfp", so
    the substring tests cannot set a stronger flag without the weaker
    ones. *)
Theorem fallback_vfp_nested (cfg : config) (os : host) (m : machine) :
  fallback_build cfg ->
  vfp_monotone (flags m) ->
  vfp_monotone (flags (final (mono_hwcap_arch_init cfg os m))).
Proof.
  intros Hfb. rewrite arch_init_fallback by exact Hfb. revert m.
  change (preserves vfp_monotone (init_fallback cfg os)).
  unfold init_fallback. apply preserves_bind.
  - unfold uname_block. destruct (HAVE_SYS_UTSNAME_H cfg);
      [|apply preserves_ret].
    unfold init_uname.
    apply preserves_bind; [apply preserves_libc|intros [mach|]];
      [|apply preserves_abort].
    apply preserves_when. intros m Hm.
    unfold vfp_monotone. simpl. destruct (flags m). simpl.
    unfold TRUE. auto.
  - intros _. unfold init_cpuinfo.
    apply preserves_bind; [apply preserves_libc|intros [contents|]];
      [|apply preserves_ret].
    apply preserves_bind; [|intros _; apply preserves_libc].
    apply preserves_scan_cpuinfo. apply vfp_monotone_scan_line.
Qed.

Lemma fallback_vfp_nested_witness :
  vfp_monotone
    (flags (final (mono_hwcap_arch_init android_build armv7_host boot))).
Proof.
  apply (fallback_vfp_nested android_build armv7_host boot).
  - split; reflexivity.
  - split; intros H; exact H.
Defined.

(** *** The auxiliary-vector branch, exactly *)

Lemma arch_init_final_joins cfg os m :
  flags (final (mono_hwcap_arch_init cfg os m))
  = join (flags m) (flags (final (mono_hwcap_arch_init cfg os boot))).
Proof.
  destruct (straight_mono_hwcap_arch_init cfg os) as (evs & r & Hevs & Hrun).
  rewrite !Hrun, !final_close. apply flags_ext. intros g.
  rewrite read_join, !read_replay by exact Hevs.
  now rewrite read_boot.
Qed.

(** Testing a one-bit mask with [&] is reading that bit. *)
Lemma mask_test h k :
  0 <= k -> negb (Z.land h (2 ^ k) =? 0) = Z.testbit h k.
Proof.
  intros Hk. destruct (Z.testbit h k) eqn:E.
  - apply negb_true_iff, Z.eqb_neq. intros H.
    apply (f_equal (fun z => Z.testbit z k)) in H.
    rewrite Z.land_spec, E, Z.pow2_bits_true, Z.bits_0 in H by exact Hk.
    discriminate.
  - apply negb_false_iff, Z.eqb_eq. apply Z.bits_inj'. intros n Hn.
    rewrite Z.land_spec, Z.bits_0, Z.pow2_bits_eqb by exact Hk.
    destruct (Z.eqb_spec k n) as [<-|_];
      [now rewrite E|apply andb_false_r].
Qed.

Lemma init_auxv_from_boot cfg os :
  flags (final (init_auxv cfg os boot)) = auxv_detected cfg os.
Proof.
  unfold init_auxv, auxv_detected, platform_version, bind, libc.
  change 0x00000004 with (2 ^ 2). change 0x00000040 with (2 ^ 6).
  change 0x00002000 with (2 ^ 13). change 0x00004000 with (2 ^ 14).
  rewrite !mask_test by lia.
  assert (Hzero : (AT_HWCAP os =? 0) = true ->
                  forall k, Z.testbit (AT_HWCAP os) k = false).
  { intros H k. apply Z.eqb_eq in H. rewrite H. apply Z.bits_0. }
  destruct (AT_HWCAP os =? 0).
  - rewrite !Hzero by reflexivity. cbn [negb when ret].
    destruct (AT_PLATFORM os) as [str|]; [|reflexivity].
    unfold load, ret, at_least.
    destruct (lit "5" <=? _), (lit "6" <=? _), (lit "7" <=? _); reflexivity.
  - cbn [negb when].
    destruct (Z.testbit (AT_HWCAP os) 2), (Z.testbit (AT_HWCAP os) 6),
      (Z.testbit (AT_HWCAP os) 13), (Z.testbit (AT_HWCAP os) 14);
      (destruct (AT_PLATFORM os) as [str|]; [|reflexivity]);
      unfold load, bind, ret, at_least;
      destruct (lit "5" <=? _), (lit "6" <=? _), (lit "7" <=? _);
      reflexivity.
Qed.

(** X7: the auxiliary-vector branch, exactly.  Each flag after the call is
    its value before the call or-ed with what the two entries say:
    [has_thumb], [has_vfp], [has_vfp3] and [has_vfp3_d16] with bits 2, 6,
    13 and 14 of [AT_HWCAP] (the outer test for a non-zero mask changes
    nothing), [is_v5], [is_v6] and [is_v7] with the comparison of the byte
    at offset 1 of the platform string against ['5'], ['6'] and ['7'] (the
    byte is read as it lies in memory, also behind the terminator of an
    empty string), and [has_thumb2] with nothing. *)
Theorem auxv_flags_exact (cfg : config) (os : host) (m : machine) :
  auxv_build cfg ->
  flags (final (mono_hwcap_arch_init cfg os m))
  = join (flags m) (auxv_detected cfg os).
Proof.
  intros Hb. rewrite arch_init_final_joins. f_equal.
  rewrite arch_init_auxv by exact Hb. apply init_auxv_from_boot.
Qed.

Lemma auxv_flags_exact_witness :
  flags (final (mono_hwcap_arch_init linux_build empty_platform_host preset))
  = join (flags preset) (auxv_detected linux_build empty_platform_host) /\
  join (flags preset) (auxv_detected linux_build empty_platform_host)
  = {| mono_hwcap_arm_is_v5 := TRUE;
       mono_hwcap_arm_is_v6 := TRUE;
       mono_hwcap_arm_is_v7 := TRUE;
       mono_hwcap_arm_has_vfp := TRUE;
       mono_hwcap_arm_has_vfp3 := FALSE;
       mono_hwcap_arm_has_vfp3_d16 := FALSE;
       mono_hwcap_arm_has_thumb := FALSE;
       mono_hwcap_arm_has_thumb2 := TRUE |}.
Proof.
  split; [|reflexivity].
  apply (auxv_flags_exact linux_build empty_platform_host preset).
  split; reflexivity.
Defined.

Lemma init_auxv_returns cfg os m :
  exists m', init_auxv cfg os m = Returned tt m'.
Proof.
  unfold init_auxv, bind, libc, load, when, assign, ret.
  destruct (AT_PLATFORM os) as [str|];
    repeat match goal with
           | |- context [if ?b then _ else _] => destruct b
           end; eauto.
Qed.

(** X8: an empty platform string is not special.  The auxiliary-vector
    branch reads [str[1]] without looking at [str[0]]: when [AT_PLATFORM]
    points at an empty string, the call still returns, and the version flags
    are decided by the byte [c] that memory holds right behind the
    terminator, exactly as for a second character. *)
Theorem auxv_empty_platform_reads_on (cfg : config) (os : host) (m : machine)
    (c : ascii) (rest : string) :
  auxv_build cfg ->
  AT_PLATFORM os = Some (String CString.NUL (String c rest)) ->
  exists m',
    mono_hwcap_arch_init cfg os m = Returned tt m' /\
    mono_hwcap_arm_is_v5 (flags m')
    = mono_hwcap_arm_is_v5 (flags m)
      || (lit "5" <=? CString.char_to_int (negb (CHAR_UNSIGNED cfg)) c) /\
    mono_hwcap_arm_is_v6 (flags m')
    = mono_hwcap_arm_is_v6 (flags m)
      || (lit "6" <=? CString.char_to_int (negb (CHAR_UNSIGNED cfg)) c) /\
    mono_hwcap_arm_is_v7 (flags m')
    = mono_hwcap_arm_is_v7 (flags m)
      || (lit "7" <=? CString.char_to_int (negb (CHAR_UNSIGNED cfg)) c).
Proof.
  intros Hb Hplat.
  pose proof (arch_init_final_joins cfg os m) as Hj.
  rewrite !arch_init_auxv in Hj by exact Hb.
  rewrite init_auxv_from_boot in Hj.
  rewrite arch_init_auxv by exact Hb.
  destruct (init_auxv_returns cfg os m) as (m' & E).
  rewrite E in Hj. simpl in Hj.
  exists m'. split; [exact E|]. rewrite Hj.
  unfold auxv_detected, platform_version. rewrite Hplat.
  now repeat split.
Qed.

Lemma auxv_empty_platform_reads_on_witness :
  exists m',
    mono_hwcap_arch_init linux_build empty_platform_host boot
    = Returned tt m' /\
    mono_hwcap_arm_is_v5 (flags m') = TRUE /\
    mono_hwcap_arm_is_v6 (flags m') = TRUE /\
    mono_hwcap_arm_is_v7 (flags m') = TRUE.
Proof.
  destruct (auxv_empty_platform_reads_on linux_build empty_platform_host boot
              "7" "l" (conj eq_refl eq_refl) eq_refl)
    as (m' & E & H5 & H6 & H7).
  exists m'. split; [exact E|]. split; [exact H5|]. split; [exact H6|exact H7].
Defined.

(** X9: the signedness of plain [char] matters for a version byte of 128
    or more, and only for such a byte.  In an auxiliary-vector build whose
    platform string has the second byte [c]:
    - if [c] is below 128, two builds that differ only in the signedness of
      [char] end with the same flags;
    - if [c] is 128 or more, a build with unsigned [char] sets [is_v5],
      [is_v6] and [is_v7], and a build with signed [char] leaves all three
      as they were. *)
Theorem version_byte_signedness (cfg cfg' : config) (os : host) (m : machine)
    (c0 c : ascii) (rest : string) :
  auxv_build cfg ->
  auxv_build cfg' ->
  c0 <> CString.NUL ->
  AT_PLATFORM os = Some (String c0 (String c rest)) ->
  (CString.uchar c < 128 ->
   flags (final (mono_hwcap_arch_init cfg os m))
   = flags (final (mono_hwcap_arch_init cfg' os m))) /\
  (128 <= CString.uchar c ->
   CHAR_UNSIGNED cfg = true ->
   mono_hwcap_arm_is_v5 (flags (final (mono_hwcap_arch_init cfg os m))) = TRUE /\
   mono_hwcap_arm_is_v6 (flags (final (mono_hwcap_arch_init cfg os m))) = TRUE /\
   mono_hwcap_arm_is_v7 (flags (final (mono_hwcap_arch_init cfg os m))) = TRUE)
  /\
  (128 <= CString.uchar c ->
   CHAR_UNSIGNED cfg = false ->
   mono_hwcap_arm_is_v5 (flags (final (mono_hwcap_arch_init cfg os m)))
   = mono_hwcap_arm_is_v5 (flags m) /\
   mono_hwcap_arm_is_v6 (flags (final (mono_hwcap_arch_init cfg os m)))
   = mono_hwcap_arm_is_v6 (flags m) /\
   mono_hwcap_arm_is_v7 (flags (final (mono_hwcap_arch_init cfg os m)))
   = mono_hwcap_arm_is_v7 (flags m)).
Proof.
  intros Hb Hb' Hc0 Hplat.
  assert (Hv : forall k, platform_version k os
                         = Some (CString.char_to_int (negb (CHAR_UNSIGNED k)) c)).
  { intros k. unfold platform_version. now rewrite Hplat. }
  rewrite (arch_init_final_joins cfg os m), (arch_init_final_joins cfg' os m).
  rewrite !arch_init_auxv by assumption. rewrite !init_auxv_from_boot.
  unfold auxv_detected. rewrite !Hv. unfold CString.char_to_int, at_least.
  change (lit "5") with 53. change (lit "6") with 54. change (lit "7") with 55.
  split; [|split].
  - intros Hlt. assert (E : (128 <=? CString.uchar c) = false) by lia.
    rewrite E, !andb_false_r. reflexivity.
  - intros Hge Hu. rewrite Hu. cbn [negb andb join mono_hwcap_arm_is_v5
      mono_hwcap_arm_is_v6 mono_hwcap_arm_is_v7].
    assert (E5 : (53 <=? CString.uchar c) = true) by lia.
    assert (E6 : (54 <=? CString.uchar c) = true) by lia.
    assert (E7 : (55 <=? CString.uchar c) = true) by lia.
    rewrite E5, E6, E7, !orb_true_r. now repeat split.
  - intros Hge Hu. rewrite Hu. cbn [negb andb].
    assert (E : (128 <=? CString.uchar c) = true) by lia. rewrite E.
    assert (Hhi : CString.uchar c < 256).
    { unfold CString.uchar. pose proof (N_ascii_bounded c). lia. }
    assert (E5 : (53 <=? CString.uchar c - 256) = false) by lia.
    assert (E6 : (54 <=? CString.uchar c - 256) = false) by lia.
    assert (E7 : (55 <=? CString.uchar c - 256) = false) by lia.
    cbn [join mono_hwcap_arm_is_v5 mono_hwcap_arm_is_v6 mono_hwcap_arm_is_v7].
    rewrite E5, E6, E7, !orb_false_r. now repeat split.
Qed.

Lemma version_byte_signedness_witness :
  flags (final (mono_hwcap_arch_init linux_build armv7_host boot))
  = flags (final (mono_hwcap_arch_init
                    (sample_build true false true true) armv7_host boot)).
Proof.
  refine (proj1 (version_byte_signedness linux_build
                   (sample_build true false true true) armv7_host boot
                   "v" "7" "l" _ _ _ eq_refl) _).
  - split; reflexivity.
  - split; reflexivity.
  - discriminate.
  - vm_compute. reflexivity.
Defined.

(** *** The Darwin branch *)

(** X10: the Darwin branch detects versions only.  The call always
    returns; the five feature flags keep their values; [is_v5] becomes
    [TRUE] exactly when it was [TRUE] or the subtype is one of the six
    known constants, so an unknown subtype changes nothing; and [is_v7] is
    set only for one of the three ARMv7 subtypes. *)
Theorem darwin_versions_only (cfg : config) (os : host) (m : machine) :
  apple_build cfg ->
  exists m',
    mono_hwcap_arch_init cfg os m = Returned tt m' /\
    mono_hwcap_arm_has_vfp (flags m') = mono_hwcap_arm_has_vfp (flags m) /\
    mono_hwcap_arm_has_vfp3 (flags m') = mono_hwcap_arm_has_vfp3 (flags m) /\
    mono_hwcap_arm_has_vfp3_d16 (flags m')
    = mono_hwcap_arm_has_vfp3_d16 (flags m) /\
    mono_hwcap_arm_has_thumb (flags m') = mono_hwcap_arm_has_thumb (flags m) /\
    mono_hwcap_arm_has_thumb2 (flags m')
    = mono_hwcap_arm_has_thumb2 (flags m) /\
    mono_hwcap_arm_is_v5 (flags m')
    = mono_hwcap_arm_is_v5 (flags m)
      || known_subtype cfg (hw_cpusubtype os) /\
    (known_subtype cfg (hw_cpusubtype os) = false -> flags m' = flags m) /\
    (mono_hwcap_arm_is_v7 (flags m') = TRUE ->
     mono_hwcap_arm_is_v7 (flags m) = TRUE \/
     hw_cpusubtype os = CPU_SUBTYPE_ARM_V7 cfg \/
     hw_cpusubtype os = CPU_SUBTYPE_ARM_V7F cfg \/
     hw_cpusubtype os = CPU_SUBTYPE_ARM_V7K cfg).
Proof.
  intros [H1 H2]. unfold mono_hwcap_arch_init. rewrite H1, H2.
  unfold init_apple, known_subtype, bind, libc, assign.
  destruct (Z.eqb_spec (hw_cpusubtype os) (CPU_SUBTYPE_ARM_V5TEJ cfg));
    destruct (Z.eqb_spec (hw_cpusubtype os) (CPU_SUBTYPE_ARM_XSCALE cfg));
    destruct (Z.eqb_spec (hw_cpusubtype os) (CPU_SUBTYPE_ARM_V6 cfg));
    destruct (Z.eqb_spec (hw_cpusubtype os) (CPU_SUBTYPE_ARM_V7 cfg));
    destruct (Z.eqb_spec (hw_cpusubtype os) (CPU_SUBTYPE_ARM_V7F cfg));
    destruct (Z.eqb_spec (hw_cpusubtype os) (CPU_SUBTYPE_ARM_V7K cfg));
    cbn [orb]; (eexists; split; [reflexivity|]);
    simpl; destruct (flags m); simpl;
    rewrite ?orb_true_r, ?orb_false_r;
    repeat split; auto; try discriminate.
Qed.

Lemma darwin_versions_only_witness :
  exists m',
    mono_hwcap_arch_init darwin_build armv7_host boot = Returned tt m' /\
    mono_hwcap_arm_has_vfp (flags m') = FALSE /\
    mono_hwcap_arm_is_v5 (flags m') = TRUE.
Proof.
  destruct (darwin_versions_only darwin_build armv7_host boot
              (conj eq_refl eq_refl))
    as (m' & E & Hvfp & _ & _ & _ & _ & Hv5 & _).
  exists m'. split; [exact E|]. split; [exact Hvfp|exact Hv5].
Defined.

(** *** The loop over a file made of parts *)

Lemma append_nil_r (s : string) : (s ++ "")%string = s.
Proof. induction s as [|c s IH]; simpl; [reflexivity|now rewrite IH]. Qed.

Lemma fgets_bytes_whole_lines_any n : forall pre,
  pre <> EmptyString -> whole_lines pre = true ->
  exists l pre',
    (forall rest,
        CString.fgets_bytes (S n) (pre ++ rest)%string
        = (l, (pre' ++ rest)%string)) /\
    whole_lines pre' = true /\
    (String.length pre' < String.length pre)%nat.
Proof.
  induction n as [|n IH]; intros pre Hne Hw;
    (destruct pre as [|c t]; [congruence|]);
    pose proof (whole_lines_tail _ _ Hw) as Ht.
  - exists (String c EmptyString), t. split; [|split; [exact Ht|simpl; lia]].
    intros rest. cbn [String.append]. rewrite fgets_bytes_cons.
    now destruct (Ascii.eqb c "010").
  - destruct (Ascii.eqb c "010") eqn:Ec.
    + exists (String c EmptyString), t.
      split; [|split; [exact Ht|simpl; lia]].
      intros rest. cbn [String.append]. now rewrite fgets_bytes_cons, Ec.
    + assert (Hne' : t <> EmptyString).
      { intros ->. simpl in Hw. congruence. }
      destruct (IH t Hne' Ht) as (l & pre' & E & Hw' & Hlen).
      exists (String c l), pre'. split; [|split; [exact Hw'|simpl; lia]].
      intros rest. cbn [String.append].
      now rewrite fgets_bytes_cons, Ec, E.
Qed.

Lemma scan_cpuinfo_whole_lines_any cfg : forall n pre,
  (String.length pre < n)%nat -> whole_lines pre = true ->
  exists evs,
    Forall raises_only evs /\
    forall rest m,
      scan_cpuinfo cfg (pre ++ rest)%string m =
      scan_cpuinfo cfg rest (replay evs m).
Proof.
  induction n as [|n IH]; intros pre Hlen Hw; [lia|].
  destruct pre as [|c t].
  - exists []. split; [constructor|reflexivity].
  - destruct (fgets_bytes_whole_lines_any 510 (String c t))
      as (l & pre' & E & Hw' & Hlen'); [congruence|exact Hw|].
    destruct (scan_line_runs cfg l) as (evs1 & Hevs1 & Hrun1).
    destruct (IH pre') as (evs2 & Hevs2 & Hrun2); [lia|exact Hw'|].
    exists (Call Fgets :: evs1 ++ evs2). split.
    + constructor; [exact I|]. apply Forall_app. now split.
    + intros rest m.
      rewrite (scan_cpuinfo_line cfg _ l (pre' ++ rest)%string).
      * rewrite Hrun1, Hrun2. simpl. now rewrite replay_app.
      * unfold CString.fgets. cbn [String.append]. f_equal. apply E.
Qed.

(** X11: the loop composes over line boundaries.  When the first part of
    a file is made of whole lines, scanning the whole file leaves the
    flags that scanning the first part and then the second part leaves:
    no line of the first part influences how the second is read. *)
Theorem scan_cpuinfo_app (cfg : config) (pre post : string) (m : machine) :
  whole_lines pre = true ->
  exists m1 m2 m3,
    scan_cpuinfo cfg pre m = Returned tt m1 /\
    scan_cpuinfo cfg post m1 = Returned tt m2 /\
    scan_cpuinfo cfg (pre ++ post)%string m = Returned tt m3 /\
    flags m3 = flags m2.
Proof.
  intros Hw.
  destruct (scan_cpuinfo_whole_lines_any cfg (S (String.length pre)) pre)
    as (evs & Hevs & Hrun); [lia|exact Hw|].
  destruct (scan_cpuinfo_runs cfg post) as (pevs & Hpevs & Hpost).
  exists (emit (Call Fgets) (replay evs m)).
  exists (replay pevs (emit (Call Fgets) (replay evs m))).
  exists (replay pevs (replay evs m)).
  split; [|split; [apply Hpost|split]].
  - rewrite <- (append_nil_r pre) at 1. rewrite Hrun.
    now rewrite scan_cpuinfo_eof.
  - now rewrite Hrun, Hpost.
  - now apply flags_replay_irrel.
Qed.

Lemma scan_cpuinfo_app_witness :
  exists m1 m2 m3,
    scan_cpuinfo android_build (model_name_line ++ LF)%string boot
    = Returned tt m1 /\
    scan_cpuinfo android_build (features_line ++ LF)%string m1
    = Returned tt m2 /\
    scan_cpuinfo android_build
      ((model_name_line ++ LF) ++ features_line ++ LF)%string boot
    = Returned tt m3 /\
    flags m3 = flags m2.
Proof.
  exact (scan_cpuinfo_app android_build (model_name_line ++ LF)%string
           (features_line ++ LF)%string boot eq_refl).
Defined.

(** *** Lines longer than the buffer *)

Lemma fgets_bytes_full : forall junk rest,
  no_newline junk = true ->
  CString.fgets_bytes (String.length junk) (junk ++ rest)%string
  = (junk, rest).
Proof.
  induction junk as [|c t IH]; intros rest H; [reflexivity|].
  simpl in H. apply andb_prop in H as [Hc Ht].
  cbn [String.length String.append]. rewrite fgets_bytes_cons.
  apply negb_true_iff in Hc. rewrite Hc. now rewrite IH.
Qed.

(** X12: a line longer than the buffer is read in pieces of 511 bytes, and
    every piece is treated as a line.  In a fallback build whose uname
    block does not abort, if the file starts with 511 bytes without a
    newline and the text [Features : thumb vfp vfpv3] follows them on the
    same line, the call returns with [has_thumb], [has_vfp] and [has_vfp3]
    all [TRUE], although that text is not at the start of a line. *)
Theorem long_line_read_in_pieces (cfg : config) (os : host) (m : machine)
    (junk tail : string) :
  fallback_build cfg ->
  uname_succeeds cfg os ->
  String.length junk = 511%nat ->
  no_newline junk = true ->
  ends_line tail ->
  proc_cpuinfo os = Some (junk ++ features_line ++ tail)%string ->
  exists m',
    mono_hwcap_arch_init cfg os m = Returned tt m' /\
    mono_hwcap_arm_has_thumb (flags m') = TRUE /\
    mono_hwcap_arm_has_vfp (flags m') = TRUE /\
    mono_hwcap_arm_has_vfp3 (flags m') = TRUE.
Proof.
  intros Hfb Hok Hlen Hjunk Htail Hfile.
  assert (Hu : exists uevs,
             uname_block cfg os m = Returned tt (replay uevs m) /\
             Forall raises_only uevs).
  { destruct (armv8_detected_dec cfg os) as [Hd|Hd].
    - exists (Call Uname :: armv8_events).
      split; [now apply uname_block_detected|repeat constructor].
    - destruct (uname_block_quiet cfg os m Hok Hd) as (uevs & E & Hu & _).
      eauto. }
  destruct Hu as (uevs & Eu & Hu).
  destruct (read_features_line cfg tail Htail)
    as (line & post & Esplit & Hfgets & Hline).
  rewrite Esplit in Hfile.
  destruct (scan_cpuinfo_with_line cfg EmptyString line post _ eq_refl
              Hfgets Hline) as (evs1 & evs2 & H1 & H2 & Hrest).
  cbn [String.append] in Hrest.
  destruct (scan_line_runs cfg junk) as (jevs & Hj & Hjrun).
  set (levs := [Assign HAS_THUMB TRUE; Assign HAS_VFP TRUE;
                Assign HAS_VFP3 TRUE]) in *.
  assert (Hscan : forall m0,
             scan_cpuinfo cfg (junk ++ line ++ post)%string m0 =
             Returned tt
               (replay ((Call Fgets :: jevs)
                        ++ evs1 ++ (Call Fgets :: levs) ++ evs2) m0)).
  { intros m0.
    rewrite (scan_cpuinfo_line cfg _ junk (line ++ post)%string).
    - rewrite Hjrun, Hrest, (replay_app (Call Fgets :: jevs)). reflexivity.
    - destruct junk as [|c t]; [discriminate|].
      unfold CString.fgets. cbn [String.append]. f_equal.
      change (String c (t ++ line ++ post)%string)
        with (String c t ++ line ++ post)%string.
      change (Nat.pred 512) with 511%nat. rewrite <- Hlen.
      now apply fgets_bytes_full. }
  set (sevs := (Call Fgets :: jevs) ++ evs1 ++ (Call Fgets :: levs) ++ evs2)
    in *.
  assert (Hall : Forall raises_only
                   (uevs ++ Call Fopen :: sevs ++ [Call Fclose])).
  { subst sevs levs.
    repeat first [ apply Forall_app; split | apply Forall_cons ];
      auto; try exact I; reflexivity. }
  assert (Hin : forall e, In e levs ->
                  In e (uevs ++ Call Fopen :: sevs ++ [Call Fclose])).
  { intros e He. apply in_or_app. right. right.
    apply in_or_app. left. subst sevs.
    apply in_or_app. right. apply in_or_app. right.
    apply in_or_app. left. now right. }
  exists (replay (uevs ++ Call Fopen :: sevs ++ [Call Fclose]) m).
  split; [|split; [|split]].
  - rewrite arch_init_fallback by exact Hfb. unfold init_fallback, bind.
    rewrite Eu, (init_cpuinfo_open _ _ _ _ _ Hfile Hscan).
    now rewrite replay_app.
  - apply (assigned_flag_true _ HAS_THUMB); [exact Hall|].
    apply Hin. simpl. tauto.
  - apply (assigned_flag_true _ HAS_VFP); [exact Hall|].
    apply Hin. simpl. tauto.
  - apply (assigned_flag_true _ HAS_VFP3); [exact Hall|].
    apply Hin. simpl. tauto.
Qed.

Lemma long_line_read_in_pieces_witness :
  exists m',
    mono_hwcap_arch_init android_build long_line_host boot = Returned tt m' /\
    mono_hwcap_arm_has_thumb (flags m') = TRUE /\
    mono_hwcap_arm_has_vfp (flags m') = TRUE /\
    mono_hwcap_arm_has_vfp3 (flags m') = TRUE.
Proof.
  refine (long_line_read_in_pieces android_build long_line_host boot
            (filler 511) LF _ _ eq_refl eq_refl _ eq_refl).
  - split; reflexivity.
  - intros _. discriminate.
  - right. now exists EmptyString.
Defined.

(** *** The report determines the flags *)

Lemma print_from_empty g f :
  mono_hwcap_print g f = (f ++ mono_hwcap_print g "")%string.
Proof.
  unfold mono_hwcap_print, g_fprintf. rewrite !append_assoc. reflexivity.
Qed.

Lemma append_inv_head (f a b : string) :
  (f ++ a)%string = (f ++ b)%string -> a = b.
Proof.
  induction f as [|c f IH]; simpl; intros H; [exact H|].
  injection H as H. now apply IH.
Qed.

Lemma line_ends_print g :
  line_ends (mono_hwcap_print g "") =
  map digit
    [mono_hwcap_arm_is_v5 g; mono_hwcap_arm_is_v6 g; mono_hwcap_arm_is_v7 g;
     mono_hwcap_arm_has_vfp g; mono_hwcap_arm_has_vfp3 g;
     mono_hwcap_arm_has_vfp3_d16 g; mono_hwcap_arm_has_thumb g;
     mono_hwcap_arm_has_thumb2 g].
Proof. destruct g as [[] [] [] [] [] [] [] []]; reflexivity. Qed.

Lemma digit_inj a b : digit a = digit b -> a = b.
Proof. destruct a, b; intros H; try reflexivity; discriminate H. Qed.

(** X13: the report determines the flags.  Two states of the eight flags
    that make [mono_hwcap_print] write the same text to the same sink are
    the same state: nothing of the state is lost in the report. *)
Theorem print_injective (g1 g2 : hwcap_arm) (f : string) :
  mono_hwcap_print g1 f = mono_hwcap_print g2 f -> g1 = g2.
Proof.
  intros H.
  rewrite (print_from_empty g1), (print_from_empty g2) in H.
  apply append_inv_head in H.
  apply (f_equal line_ends) in H. rewrite !line_ends_print in H.
  destruct g1, g2. simpl in H.
  injection H as H1 H2 H3 H4 H5 H6 H7 H8.
  apply digit_inj in H1, H2, H3, H4, H5, H6, H7, H8. now subst.
Qed.

Lemma print_injective_witness :
  mono_hwcap_print initial_flags "" = mono_hwcap_print initial_flags "" /\
  initial_flags = initial_flags.
Proof.
  split; [reflexivity|].
  exact (print_injective initial_flags initial_flags "" eq_refl).
Defined.

(** *** The loop body, line by line *)

Lemma starts_with_self needle b :
  CString.starts_with needle (needle ++ b)%string = true.
Proof.
  induction needle as [|c n IH]; [reflexivity|].
  cbn [String.append CString.starts_with]. now rewrite Ascii.eqb_refl.
Qed.

Lemma prefix_self p x : String.prefix p (p ++ x)%string = true.
Proof.
  induction p as [|c p IH]; [now destruct x|].
  cbn [String.append String.prefix].
  destruct (Ascii.ascii_dec c c); [exact IH|congruence].
Qed.

Lemma strstr_after_plain a b :
  no_paren a = true ->
  CString.strstr (a ++ "(v" ++ b)%string "(v" = Some ("(v" ++ b)%string.
Proof.
  induction a as [|c t IH]; intros H; [reflexivity|].
  simpl in H. apply andb_prop in H as [H Ht]. apply andb_prop in H as [Hp Hn].
  apply negb_true_iff in Hp, Hn.
  cbn [String.append CString.strstr CString.starts_with].
  rewrite (Ascii.eqb_sym "(" c), Hp, Hn. cbn [andb]. now apply IH.
Qed.

(** X14: the version a model line gives.  For a line that starts with
    "Processor" or with "model name" and whose first "(v" is followed by
    the byte [c], the loop body returns and adds to the flags exactly the
    version flags of [c]: all three for ['7'] and above, [is_v5] and
    [is_v6] for ['6'], [is_v5] alone for ['5'], and none for a byte below
    ['5'], such as a newline or the end of the line right after "(v". *)
Theorem model_line_version (cfg : config) (key mid rest : string) (c : ascii)
    (m : machine) :
  key = "Processor"%string \/ key = "model name"%string ->
  no_paren mid = true ->
  exists m',
    scan_line cfg (key ++ mid ++ "(v" ++ String c rest)%string m
    = Returned tt m' /\
    flags m' =
    join (flags m)
      (version_flags (CString.char_to_int (negb (CHAR_UNSIGNED cfg)) c)).
Proof.
  intros Hkey Hmid. unfold scan_line.
  assert (Hcond :
            (CString.strncmp (key ++ mid ++ "(v" ++ String c rest) "Processor"
               9 =? 0)
            || (CString.strncmp (key ++ mid ++ "(v" ++ String c rest)
                  "model name" 10 =? 0) = true).
  { change 9%nat with (String.length "Processor").
    change 10%nat with (String.length "model name").
    rewrite !strncmp_literal by reflexivity.
    destruct Hkey as [-> | ->]; rewrite prefix_self;
      [reflexivity|apply orb_true_r]. }
  rewrite Hcond.
  assert (Hstr : CString.strstr (key ++ mid ++ "(v" ++ String c rest) "(v"
                 = Some ("(v" ++ String c rest)%string).
  { destruct Hkey as [-> | ->].
    - apply (strstr_after_plain ("Processor" ++ mid) (String c rest)).
      exact Hmid.
    - apply (strstr_after_plain ("model name" ++ mid) (String c rest)).
      exact Hmid. }
  rewrite Hstr.
  change (CString.byte_at ("(v" ++ String c rest) 2) with c.
  unfold load, bind, ret, when, assign, version_flags.
  change (CString.byte_at ("(v" ++ String c rest) 2) with c.
  cbv beta iota.
  destruct (lit "5" <=? _), (lit "6" <=? _), (lit "7" <=? _);
    (eexists; split; [reflexivity|]);
    simpl; destruct (flags m); unfold join, TRUE, FALSE; simpl;
    rewrite ?orb_true_r, ?orb_false_r; reflexivity.
Qed.

Lemma model_line_version_witness :
  exists m',
    scan_line android_build
      ("Processor" ++ " : ARMv6-compatible processor rev 7 "
       ++ "(v" ++ String "6" "l)")%string boot
    = Returned tt m' /\
    mono_hwcap_arm_is_v5 (flags m') = TRUE /\
    mono_hwcap_arm_is_v6 (flags m') = TRUE /\
    mono_hwcap_arm_is_v7 (flags m') = FALSE.
Proof.
  destruct (model_line_version android_build "Processor"
              " : ARMv6-compatible processor rev 7 " "l)" "6" boot
              (or_introl eq_refl) eq_refl) as (m' & E & Hflags).
  exists m'. split; [exact E|]. now rewrite Hflags.
Defined.

Lemma strstr_occurs needle a b :
  nul_free a = true ->
  found (CString.strstr (a ++ needle ++ b)%string needle) = true.
Proof.
  induction a as [|c t IH]; intros H.
  - cbn [String.append].
    destruct (needle ++ b)%string eqn:E; simpl;
      rewrite <- E, starts_with_self; reflexivity.
  - simpl in H. apply andb_prop in H as [Hc Ht].
    apply negb_true_iff in Hc.
    cbn [String.append CString.strstr].
    destruct (CString.starts_with needle _); [reflexivity|].
    rewrite Hc. now apply IH.
Qed.

(** X15: the tokens of a Features line are matched as substrings.  For a
    line that starts with "Features", each of [thumb], [vfp], [vfpv3] and
    [vfpv3-d16] sets its flag wherever it occurs in the line, also inside a
    longer word such as [thumbee] or [vfpv4]. *)
Theorem feature_token_anywhere (cfg : config) (a b tok : string) (g : global)
    (m : machine) :
  In (tok, g) feature_tokens ->
  nul_free a = true ->
  exists m',
    scan_line cfg ("Features" ++ a ++ tok ++ b)%string m = Returned tt m' /\
    read g (flags m') = TRUE.
Proof.
  intros Htok Ha.
  pose proof (strstr_occurs tok ("Features" ++ a) b Ha) as Hfound.
  change (("Features" ++ a) ++ tok ++ b)%string
    with ("Features" ++ a ++ tok ++ b)%string in Hfound.
  unfold scan_line.
  assert (Hno : (CString.strncmp ("Features" ++ a ++ tok ++ b) "Processor" 9
                 =? 0)
                || (CString.strncmp ("Features" ++ a ++ tok ++ b)
                      "model name" 10 =? 0) = false) by reflexivity.
  assert (Hyes : (CString.strncmp ("Features" ++ a ++ tok ++ b) "Features" 8
                  =? 0) = true).
  { change 8%nat with (String.length "Features").
    rewrite strncmp_literal by reflexivity. apply prefix_self. }
  rewrite Hno, Hyes.
  unfold bind, when, assign, ret.
  simpl in Htok.
  destruct Htok as [H|[H|[H|[H|[]]]]]; injection H as <- <-;
    rewrite Hfound;
    repeat match goal with
           | |- context [if ?x then _ else _] => destruct x
           end;
    (eexists; split; [reflexivity|]);
    simpl; destruct (flags m); reflexivity.
Qed.

Lemma feature_token_anywhere_witness :
  exists m',
    scan_line android_build
      ("Features" ++ "	: swp half " ++ "thumb" ++ "ee java")%string boot
    = Returned tt m' /\
    read HAS_THUMB (flags m') = TRUE.
Proof.
  refine (feature_token_anywhere android_build "	: swp half " "ee java"
            "thumb" HAS_THUMB boot _ eq_refl).
  left. reflexivity.
Defined.

(** X16: lines with other keys are ignored.  A line whose first byte is
    none of [P], [m] and [F] (such as the lower-case [processor : 0] of an
    ARMv7 kernel) makes the loop body return without any event: no flag is
    assigned, whatever the rest of the line contains. *)
Theorem other_line_ignored (cfg : config) (c : ascii) (t : string)
    (m : machine) :
  c <> "P"%char -> c <> "m"%char -> c <> "F"%char ->
  scan_line cfg (String c t) m = Returned tt m.
Proof.
  intros HP Hm HF.
  assert (Hne : forall d k lit_tail,
             c <> d ->
             (CString.strncmp (String c t) (String d lit_tail) (S k) =? 0)
             = false).
  { intros d k lit_tail Hd. cbn [CString.strncmp].
    destruct (Ascii.eqb c d) eqn:E;
      [apply Ascii.eqb_eq in E; contradiction|].
    cbn [negb]. apply Z.eqb_neq. intros H. apply Hd.
    apply uchar_inj. lia. }
  unfold scan_line.
  rewrite (Hne "P"%char 8%nat "rocessor" HP).
  rewrite (Hne "m"%char 9%nat "odel name" Hm).
  rewrite (Hne "F"%char 7%nat "eatures" HF).
  reflexivity.
Qed.

Lemma other_line_ignored_witness :
  scan_line android_build "processor : 0 (v7l) thumb vfp" boot
  = Returned tt boot.
Proof.
  apply (other_line_ignored android_build "p" "rocessor : 0 (v7l) thumb vfp"
           boot); discriminate.
Defined.

(** *** A token that is nowhere in the file *)

Lemma strstr_found_occurs needle : forall line,
  found (CString.strstr line needle) = true -> occurs needle line = true.
Proof.
  induction line as [|c t IH]; intros H.
  - simpl in *. destruct (CString.starts_with needle ""); [reflexivity|].
    discriminate.
  - cbn [CString.strstr occurs] in *.
    destruct (CString.starts_with needle (String c t)); [reflexivity|].
    destruct (CString.is_nul c); [discriminate|]. exact (IH H).
Qed.

Lemma starts_with_app_r needle : forall x r,
  CString.starts_with needle x = true ->
  CString.starts_with needle (x ++ r)%string = true.
Proof.
  induction needle as [|c n IH]; intros x r H; [reflexivity|].
  destruct x as [|d x]; [discriminate|].
  cbn [String.append CString.starts_with] in *.
  apply andb_prop in H as [Hc H]. rewrite Hc. now apply IH.
Qed.

Lemma occurs_app_r needle r : forall l,
  occurs needle r = true -> occurs needle (l ++ r)%string = true.
Proof.
  induction l as [|c t IH]; intros H; [exact H|].
  cbn [String.append occurs]. rewrite (IH H). apply orb_true_r.
Qed.

Lemma occurs_app_l needle r : forall l,
  occurs needle l = true -> occurs needle (l ++ r)%string = true.
Proof.
  induction l as [|c t IH]; intros H.
  - simpl in H. rewrite orb_false_r in H.
    apply (starts_with_app_r needle "" r) in H. simpl in H.
    destruct r; simpl; now rewrite H.
  - cbn [String.append occurs] in *.
    apply orb_prop in H as [H|H].
    + pose proof (starts_with_app_r needle (String c t) r H) as H'.
      cbn [String.append] in H'. now rewrite H'.
    + rewrite (IH H). apply orb_true_r.
Qed.

Lemma fgets_bytes_split : forall n s l r,
  CString.fgets_bytes n s = (l, r) -> s = (l ++ r)%string.
Proof.
  induction n as [|n IH]; intros s l r E.
  - simpl in E. now inversion E.
  - destruct s as [|c t]; [now inversion E|].
    rewrite fgets_bytes_cons in E.
    destruct (Ascii.eqb c "010"); [now inversion E|].
    destruct (CString.fgets_bytes n t) as [l' r'] eqn:E'.
    inversion E; subst. simpl. f_equal. now apply IH.
Qed.

Lemma fgets_keeps_absent needle file line rest :
  occurs needle file = false ->
  CString.fgets 512 file = Some (line, rest) ->
  occurs needle line = false /\ occurs needle rest = false.
Proof.
  intros Hno E. destruct file as [|c t]; [discriminate|].
  assert (E' : CString.fgets_bytes (Nat.pred 512) (String c t) = (line, rest))
    by (unfold CString.fgets in E; congruence).
  apply fgets_bytes_split in E'. rewrite E' in Hno. split.
  - destruct (occurs needle line) eqn:H; [|reflexivity].
    now rewrite (occurs_app_l needle rest line H) in Hno.
  - destruct (occurs needle rest) eqn:H; [|reflexivity].
    now rewrite (occurs_app_r needle rest line H) in Hno.
Qed.

Lemma scan_line_spares_d16 cfg line :
  occurs "vfpv3-d16" line = false ->
  emits (spares HAS_VFP3_D16) (scan_line cfg line).
Proof.
  intros Hno.
  assert (H : found (CString.strstr line "vfpv3-d16") = false).
  { destruct (found (CString.strstr line "vfpv3-d16")) eqn:E; [|reflexivity].
    apply strstr_found_occurs in E. congruence. }
  unfold scan_line. rewrite H.
  destruct (_ || _).
  - emits_steps spares_event.
  - destruct (_ =? _); [|apply emits_ret].
    apply emits_bind; [emits_steps spares_event|intros _].
    apply emits_bind; [emits_steps spares_event|intros _].
    apply emits_bind; [emits_steps spares_event|intros _].
    apply emits_ret.
Qed.

Lemma scan_cpuinfo_spares_d16 cfg file :
  occurs "vfpv3-d16" file = false ->
  emits (spares HAS_VFP3_D16) (scan_cpuinfo cfg file).
Proof.
  apply (scan_cpuinfo_elim cfg
           (fun file _ _ =>
              occurs "vfpv3-d16" file = false ->
              emits (spares HAS_VFP3_D16) (scan_cpuinfo cfg file)));
    [| |exact boot]; clear file.
  - intros file line rest E _ IH _ Hno.
    destruct (fgets_keeps_absent _ _ _ _ Hno E) as [Hline Hrest].
    specialize (IH tt boot Hrest).
    assert (S : emits (spares HAS_VFP3_D16)
                  (bind (libc Fgets tt)
                     (fun _ => bind (scan_line cfg line)
                                 (fun _ => scan_cpuinfo cfg rest)))).
    { apply emits_bind; [apply emits_libc; spares_event|intros _].
      apply emits_bind; [now apply scan_line_spares_d16|intros _; exact IH]. }
    destruct S as (evs & r & Hevs & HS). exists evs, r. split; [exact Hevs|].
    intros m. rewrite <- HS, (scan_cpuinfo_line _ _ _ _ _ E).
    unfold bind, libc. destruct (scan_line cfg line _) as [[]|]; reflexivity.
  - intros file E m _ _. exists [Call Fgets], (inl tt).
    split; [repeat constructor|].
    intros m'. now rewrite scan_cpuinfo_eof.
Qed.

(** With no ARMv8 uname result and the token nowhere in the file, nothing
    assigns [has_vfp3_d16]. *)
Lemma d16_untouched cfg os contents m :
  fallback_build cfg ->
  ~ armv8_detected cfg os ->
  proc_cpuinfo os = Some contents ->
  occurs "vfpv3-d16" contents = false ->
  mono_hwcap_arm_has_vfp3_d16 (flags (final (mono_hwcap_arch_init cfg os m)))
  = mono_hwcap_arm_has_vfp3_d16 (flags m).
Proof.
  intros Hfb Hd Hfile Hno.
  assert (H : emits (spares HAS_VFP3_D16) (mono_hwcap_arch_init cfg os)).
  { destruct Hfb as [H1 H2]. unfold mono_hwcap_arch_init. rewrite H1, H2.
    unfold init_fallback. apply emits_bind;
      [now apply uname_block_spares|intros _].
    unfold init_cpuinfo. apply emits_libc_bind; [spares_event|].
    rewrite Hfile.
    apply emits_bind; [now apply scan_cpuinfo_spares_d16|intros _].
    apply emits_libc. spares_event. }
  destruct H as (evs & r & Hevs & Hrun).
  rewrite Hrun, final_close.
  exact (replay_spares HAS_VFP3_D16 evs m Hevs).
Qed.

(** **** C3 *)

(** C3, as amended: the cpuinfo scan on the two sample lines.  In a fallback
    build whose uname block does not abort, started with all flags [FALSE]:
    - if /proc/cpuinfo has [model name : ARMv7 Processor rev 2 (v7l)] as one
      of its lines (after any whole lines; followed by the end of the file
      or by a newline and any text), the call returns with [is_v5], [is_v6]
      and [is_v7] all [TRUE];
    - if it has [Features : thumb vfp vfpv3] as one of its lines, the call
      returns with [has_thumb], [has_vfp] and [has_vfp3] all [TRUE]; and
      [has_vfp3_d16] remains [FALSE] provided that uname did not report
      ARMv8 and that the text [vfpv3-d16] occurs nowhere in the file,
      whatever other lines the file has;
    - if that Features line is the whole file and uname did not report
      ARMv8, these three are the only flags set. *)
Theorem cpuinfo_sample_lines (cfg : config) (os : host) (m : machine)
    (pre tail : string) :
  fallback_build cfg ->
  uname_succeeds cfg os ->
  flags m = initial_flags ->
  whole_lines pre = true ->
  ends_line tail ->
  (proc_cpuinfo os = Some (pre ++ model_name_line ++ tail)%string ->
   exists m',
     mono_hwcap_arch_init cfg os m = Returned tt m' /\
     mono_hwcap_arm_is_v5 (flags m') = TRUE /\
     mono_hwcap_arm_is_v6 (flags m') = TRUE /\
     mono_hwcap_arm_is_v7 (flags m') = TRUE) /\
  (proc_cpuinfo os = Some (pre ++ features_line ++ tail)%string ->
   exists m',
     mono_hwcap_arch_init cfg os m = Returned tt m' /\
     mono_hwcap_arm_has_thumb (flags m') = TRUE /\
     mono_hwcap_arm_has_vfp (flags m') = TRUE /\
     mono_hwcap_arm_has_vfp3 (flags m') = TRUE /\
     (~ armv8_detected cfg os ->
      occurs "vfpv3-d16" (pre ++ features_line ++ tail) = false ->
      mono_hwcap_arm_has_vfp3_d16 (flags m') = FALSE)) /\
  (proc_cpuinfo os = Some (features_line ++ tail)%string ->
   tail = EmptyString \/ tail = LF ->
   ~ armv8_detected cfg os ->
   exists m',
     mono_hwcap_arch_init cfg os m = Returned tt m' /\
     flags m' =
     {| mono_hwcap_arm_is_v5 := FALSE;
        mono_hwcap_arm_is_v6 := FALSE;
        mono_hwcap_arm_is_v7 := FALSE;
        mono_hwcap_arm_has_vfp := TRUE;
        mono_hwcap_arm_has_vfp3 := TRUE;
        mono_hwcap_arm_has_vfp3_d16 := FALSE;
        mono_hwcap_arm_has_thumb := TRUE;
        mono_hwcap_arm_has_thumb2 := FALSE |}).
Proof.
  intros Hfb Hok Hinit Hw Htail.
  assert (Huname : exists uevs,
             uname_block cfg os m = Returned tt (replay uevs m) /\
             Forall raises_only uevs /\
             (~ armv8_detected cfg os -> flags (replay uevs m) = flags m)).
  { destruct (armv8_detected_dec cfg os) as [Hd|Hd].
    - exists (Call Uname :: armv8_events).
      split; [now apply uname_block_detected|].
      split; [repeat constructor|tauto].
    - destruct (uname_block_quiet cfg os m Hok Hd) as (uevs & E & Hu & Hf).
      exists uevs. auto. }
  destruct Huname as (uevs & Eu & Hu & Hquiet).
  assert (Hline : forall line post levs,
             CString.fgets 512 (line ++ post)%string = Some (line, post) ->
             (forall m, scan_line cfg line m = Returned tt (replay levs m)) ->
             Forall raises_only levs ->
             proc_cpuinfo os = Some (pre ++ line ++ post)%string ->
             exists evs,
               mono_hwcap_arch_init cfg os m = Returned tt (replay evs m) /\
               Forall raises_only evs /\
               forall e, In e levs -> In e evs).
  { intros line post levs Hfgets Hscan Hlevs Hfile.
    destruct (scan_cpuinfo_with_line cfg pre line post levs Hw Hfgets Hscan)
      as (evs1 & evs2 & H1 & H2 & Hshape).
    exists (uevs ++ Call Fopen
              :: (evs1 ++ (Call Fgets :: levs) ++ evs2) ++ [Call Fclose]).
    split; [|split].
    - rewrite arch_init_fallback by exact Hfb. unfold init_fallback, bind.
      rewrite Eu, (init_cpuinfo_open _ _ _ _ _ Hfile Hshape).
      now rewrite replay_app.
    - repeat first [ apply Forall_app; split | apply Forall_cons ];
        auto; exact I.
    - intros e He. apply in_or_app. right. right.
      apply in_or_app. left. apply in_or_app. right.
      apply in_or_app. left. now right. }
  split; [|split].
  - intros Hfile.
    destruct (read_model_name_line cfg tail Htail)
      as (line & post & Esplit & Hfgets & Hscan).
    rewrite Esplit in Hfile.
    destruct (Hline line post _ Hfgets Hscan) as (evs & E & Hevs & Hin);
      [repeat constructor|exact Hfile|].
    exists (replay evs m). split; [exact E|].
    split; [|split].
    + apply (assigned_flag_true evs IS_V5); [exact Hevs|]. apply Hin.
      simpl. tauto.
    + apply (assigned_flag_true evs IS_V6); [exact Hevs|]. apply Hin.
      simpl. tauto.
    + apply (assigned_flag_true evs IS_V7); [exact Hevs|]. apply Hin.
      simpl. tauto.
  - intros Hfile.
    pose proof (fun Hd Hno =>
                  d16_untouched cfg os _ m Hfb Hd Hfile Hno) as Hd16.
    destruct (read_features_line cfg tail Htail)
      as (line & post & Esplit & Hfgets & Hscan).
    rewrite Esplit in Hfile.
    destruct (Hline line post _ Hfgets Hscan) as (evs & E & Hevs & Hin);
      [repeat constructor|exact Hfile|].
    exists (replay evs m). split; [exact E|].
    split; [|split; [|split]].
    + apply (assigned_flag_true evs HAS_THUMB); [exact Hevs|]. apply Hin.
      simpl. tauto.
    + apply (assigned_flag_true evs HAS_VFP); [exact Hevs|]. apply Hin.
      simpl. tauto.
    + apply (assigned_flag_true evs HAS_VFP3); [exact Hevs|]. apply Hin.
      simpl. tauto.
    + intros Hd Hno. specialize (Hd16 Hd Hno).
      rewrite E in Hd16. simpl in Hd16. rewrite Hd16, Hinit. reflexivity.
  - intros Hfile Hwhole Hd. specialize (Hquiet Hd).
    eexists. split.
    + rewrite arch_init_fallback by exact Hfb. unfold init_fallback, bind.
      rewrite Eu.
      eapply init_cpuinfo_open; [exact Hfile|].
      intros m0. now apply scan_features_only.
    + rewrite (flags_replay_irrel _ _ boot); [reflexivity|].
      now rewrite Hquiet, Hinit.
Qed.

Lemma cpuinfo_sample_lines_witness :
  (exists m',
      mono_hwcap_arch_init android_build armv7_host boot = Returned tt m' /\
      mono_hwcap_arm_is_v5 (flags m') = TRUE /\
      mono_hwcap_arm_is_v6 (flags m') = TRUE /\
      mono_hwcap_arm_is_v7 (flags m') = TRUE) /\
  (exists m',
      mono_hwcap_arch_init android_build armv7_host boot = Returned tt m' /\
      mono_hwcap_arm_has_thumb (flags m') = TRUE /\
      mono_hwcap_arm_has_vfp (flags m') = TRUE /\
      mono_hwcap_arm_has_vfp3 (flags m') = TRUE /\
      mono_hwcap_arm_has_vfp3_d16 (flags m') = FALSE) /\
  (exists m',
      mono_hwcap_arch_init bare_build features_only_host boot
      = Returned tt m' /\
      mono_hwcap_arm_has_vfp3_d16 (flags m') = FALSE).
Proof.
  assert (Ha : fallback_build android_build) by (split; reflexivity).
  assert (Hb : fallback_build bare_build) by (split; reflexivity).
  assert (Hu : uname_succeeds android_build armv7_host)
    by (intros _; discriminate).
  assert (Hv : uname_succeeds bare_build features_only_host)
    by (intros H; discriminate H).
  assert (Hd : ~ armv8_detected android_build armv7_host).
  { intros (_ & mach & H & [Hm|Hm]); inversion H; subst; discriminate Hm. }
  split; [|split].
  - refine (proj1 (cpuinfo_sample_lines android_build armv7_host boot
                     EmptyString (LF ++ features_line ++ LF)
                     Ha Hu eq_refl eq_refl _) eq_refl).
    right. now exists (features_line ++ LF)%string.
  - destruct (proj1 (proj2 (cpuinfo_sample_lines android_build armv7_host
                 boot (model_name_line ++ LF) LF Ha Hu eq_refl eq_refl
                 (or_intror (ex_intro _ EmptyString eq_refl)))) eq_refl)
      as (m' & E & H1 & H2 & H3 & H4).
    exists m'. split; [exact E|]. split; [exact H1|]. split; [exact H2|].
    split; [exact H3|]. exact (H4 Hd eq_refl).
  - destruct (proj2 (proj2 (cpuinfo_sample_lines bare_build
                 features_only_host boot EmptyString LF
                 Hb Hv eq_refl eq_refl
                 (or_intror (ex_intro _ EmptyString eq_refl))))
                eq_refl (or_intror eq_refl)) as (m' & E & Hflags).
    + intros [H _]. discriminate H.
    + exists m'. split; [exact E|]. now rewrite Hflags.
Defined.

(** C3, as stated, fails: a Features line with [thumb vfp vfpv3] does not
    keep [has_vfp3_d16] [FALSE] when another line of the file sets it.  On a
    host whose /proc/cpuinfo holds that line and then
    [Features : vfpv3-d16], the call returns with [has_vfp3_d16] [TRUE]. *)
Lemma cpuinfo_other_line_sets_d16 :
  ~ (forall cfg os m pre tail,
        fallback_build cfg ->
        uname_succeeds cfg os ->
        flags m = initial_flags ->
        whole_lines pre = true ->
        ends_line tail ->
        (proc_cpuinfo os = Some (pre ++ model_name_line ++ tail)%string ->
         exists m',
           mono_hwcap_arch_init cfg os m = Returned tt m' /\
           mono_hwcap_arm_is_v5 (flags m') = TRUE /\
           mono_hwcap_arm_is_v6 (flags m') = TRUE /\
           mono_hwcap_arm_is_v7 (flags m') = TRUE) /\
        (proc_cpuinfo os = Some (pre ++ features_line ++ tail)%string ->
         exists m',
           mono_hwcap_arch_init cfg os m = Returned tt m' /\
           mono_hwcap_arm_has_thumb (flags m') = TRUE /\
           mono_hwcap_arm_has_vfp (flags m') = TRUE /\
           mono_hwcap_arm_has_vfp3 (flags m') = TRUE /\
           mono_hwcap_arm_has_vfp3_d16 (flags m') = FALSE)).
Proof.
  intros H.
  destruct (proj2 (H bare_build two_features_host boot EmptyString
                     (LF ++ "Features : vfpv3-d16" ++ LF)%string
                     (conj eq_refl eq_refl)
                     (fun E => False_ind _ (Bool.diff_false_true E))
                     eq_refl eq_refl
                     (or_intror (ex_intro _ _ eq_refl)))
              eq_refl) as (m' & E & _ & _ & _ & Hd16).
  vm_compute in E. injection E as <-. discriminate Hd16.
Qed.
